(** * IoT integration module: a shallow embedding of [iot_integration.js]

    The module is one class, [IoTIntegration], with six methods.  It is
    embedded here as functions in a small state-and-exception monad over an
    explicit [world]: the network the instance fetches from, the wall clock,
    the console, the heap holding the caller's equipment records, and the
    table of interval timers. *)

From Stdlib Require Import ZArith String List DecimalString.
From Stdlib Require Import Floats.SpecFloat.
From stdpp Require Import gmap strings list fin_maps.

Set Warnings "-register-all".
Open Scope string_scope.
Open Scope Z_scope.

(** ** JavaScript values *)

(** What [response.json()] can produce, plus [undefined] (the result of
    reading a property that is not there) and [VHost], a function or object
    of the host environment reached through a prototype (for instance
    [Object.prototype.toString], read as [mapping["toString"]]).  Numbers are
    IEEE 754 doubles. *)
Inductive value : Type :=
  | VUndef
  | VNull
  | VBool (b : bool)
  | VNum (f : spec_float)
  | VStr (s : string)
  | VArr (l : list value)
  | VObj (m : gmap string value)
  | VHost (name : string).

(** ToBoolean: the test behind [!x], [x && y] and [if (x)]. *)
Definition truthy (v : value) : bool :=
  match v with
  | VUndef | VNull => false
  | VBool b => b
  | VNum (S754_zero _) | VNum S754_nan => false
  | VNum _ => true
  | VStr EmptyString => false
  | VStr _ => true
  | VArr _ | VObj _ | VHost _ => true
  end.

(** Equality of two numbers: NaN equals nothing, the two zeros are equal,
    and two finite numbers are equal when they have the same sign and the
    same magnitude, [m * 2^e], whichever mantissa and exponent write it. *)
Definition number_equal (x y : spec_float) : bool :=
  match x, y with
  | S754_zero _, S754_zero _ => true
  | S754_infinity s1, S754_infinity s2 => Bool.eqb s1 s2
  | S754_finite s1 m1 e1, S754_finite s2 m2 e2 =>
      Bool.eqb s1 s2
      && (Z.shiftl (Z.pos m1) (e1 - Z.min e1 e2)
          =? Z.shiftl (Z.pos m2) (e2 - Z.min e1 e2))
  | _, _ => false
  end.

(** [a === b].  Objects and arrays compare by identity; the two operands the
    module compares are distinct nodes of one parsed JSON tree, which shares
    nothing, so two of them are never the same object. *)
Definition strict_equal (a b : value) : bool :=
  match a, b with
  | VUndef, VUndef => true
  | VNull, VNull => true
  | VBool x, VBool y => Bool.eqb x y
  | VNum x, VNum y => number_equal x y
  | VStr x, VStr y => String.eqb x y
  | VHost x, VHost y => String.eqb x y
  | _, _ => false
  end.

(** The own property names of [Object.prototype], which every plain object
    inherits. *)
Definition Object_prototype : list string :=
  [ "constructor"; "hasOwnProperty"; "isPrototypeOf"; "propertyIsEnumerable";
    "toLocaleString"; "toString"; "valueOf"; "__proto__";
    "__defineGetter__"; "__defineSetter__"; "__lookupGetter__";
    "__lookupSetter__" ].

(** Thrown values. *)
Record js_error : Type := JsError { error_name : string; error_message : string }.

(** What an evaluation comes to: a value, or a thrown error. *)
Inductive outcome (A : Type) : Type :=
  | Val (a : A)
  | Exn (e : js_error).
Arguments Val {A} a.
Arguments Exn {A} e.

(** Where a record lives in the heap; the elements of the caller's array are
    such locations. *)
Definition loc : Type := positive.

Inductive nullish : Type :=
  | IsNull
  | IsUndefined.

(** The TypeErrors the engine raises on the module's property accesses:
    reading a property of [null] or [undefined]; reading or writing a
    property of an array element that is one of the two; writing a property
    that is read-only; adding one to an object that is not extensible. *)
Inductive type_error : Type :=
  | ReadOfNullish (receiver : nullish) (key : string)
  | ReadOfElement (element : loc) (key : string)
  | WriteToElement (element : loc) (key : string)
  | WriteToReadOnly (key : string)
  | AddToNonExtensible (key : string).

(** ** The host environment

    What the module calls but does not define, and whose results depend on
    the engine or the locale. *)
Class Host : Type := {
  (** the abstract operation ToString, as applied by a template literal; on
      an object or an array it runs the conversion to a primitive, which
      throws a TypeError when neither [toString] nor [valueOf] gives one *)
  ToString : value -> outcome string;
  (** the time value, in milliseconds since the epoch, of [new Date(v)] for a
      defined [v]; [None] is an Invalid Date, whose time value is NaN; on an
      object or an array the constructor first converts to a primitive, and
      throws when that conversion does *)
  Date_value : value -> outcome (option Z);
  (** [Date.prototype.toLocaleString] on a valid time value *)
  locale_format : Z -> string;
  (** property reads on receivers other than plain objects: arrays, strings,
      numbers, booleans and host objects *)
  exotic_get : value -> string -> value;
  (** the text of the engine's TypeError messages *)
  type_error_message : type_error -> string;
  (** the delay a repeating timer gets when it is asked for one that not
      every host honours: Node runs delays below 1 or above 2147483647 at
      1 ms; browsers reduce the delay to a signed 32-bit integer, raise a
      negative one to 0, and after its first few runs raise a repeating
      timer's delay below 4 to 4 *)
  unusual_delay : Z -> Z
}.

(** ** Equipment records and the instance *)

(** One of the two properties the module writes: not there, or a data
    property with its value and its [writable] attribute. *)
Inductive field : Type :=
  | Absent
  | Data (v : value) (writable : bool).

(** A caller-owned record, an object with data properties only: its
    [equipmentNumber], the two properties the module writes, whether the
    object is extensible (it is not after [Object.preventExtensions],
    [Object.seal] or [Object.freeze]), and whatever else the caller keeps.
    On a frozen object every property is also not writable. *)
Record EquipmentRecord : Type := {
  equipmentNumber : string;
  currentHours : field;
  lastIoTUpdate : field;
  extensible : bool;
  other_fields : gmap string value
}.

(** [o.key = v] in strict code, on the property [f] of an object: a writable
    property takes the value; a property that is not there is created,
    writable, if the object is extensible; otherwise the assignment throws. *)
Definition assign (key : string) (v : value) (is_extensible : bool) (f : field) :
    type_error + field :=
  match f with
  | Data _ true => inr (Data v true)
  | Data _ false => inl (WriteToReadOnly key)
  | Absent => if is_extensible then inr (Data v true) else inl (AddToNonExtensible key)
  end.

Definition set_currentHours (v : value) (r : EquipmentRecord) :
    type_error + EquipmentRecord :=
  match assign "currentHours" v (extensible r) (currentHours r) with
  | inr f =>
      inr {| equipmentNumber := equipmentNumber r;
             currentHours := f;
             lastIoTUpdate := lastIoTUpdate r;
             extensible := extensible r;
             other_fields := other_fields r |}
  | inl e => inl e
  end.

Definition set_lastIoTUpdate (v : value) (r : EquipmentRecord) :
    type_error + EquipmentRecord :=
  match assign "lastIoTUpdate" v (extensible r) (lastIoTUpdate r) with
  | inr f =>
      inr {| equipmentNumber := equipmentNumber r;
             currentHours := currentHours r;
             lastIoTUpdate := f;
             extensible := extensible r;
             other_fields := other_fields r |}
  | inl e => inl e
  end.

(** [this.updateTimer]: never assigned by the constructor, a handle after
    [startAutoUpdate], [null] after [stopAutoUpdate]. *)
Inductive timer_slot : Type :=
  | SlotUndefined
  | SlotNull
  | SlotHandle (h : positive).

(** A handle returned by [setInterval] is a positive integer, hence truthy. *)
Definition slot_truthy (s : timer_slot) : bool :=
  match s with
  | SlotHandle _ => true
  | _ => false
  end.

Record IoTIntegration : Type := {
  iotDataFile : string;
  updateInterval : Z;
  autoUpdateEnabled : bool;
  updateTimer : timer_slot
}.

(** [constructor()] *)
Definition constructor : IoTIntegration :=
  {| iotDataFile := "iot_data.json";
     updateInterval := 30000;
     autoUpdateEnabled := false;
     updateTimer := SlotUndefined |}.

(** ** The world *)

(** A settled [Response]: its [ok] flag, its [status], and what the promise
    returned by [json()] settles to. *)
Record Response : Type := {
  ok : bool;
  status : Z;
  json : outcome value
}.

(** What the promise returned by [fetch(url)] settles to. *)
Inductive settled : Type :=
  | Rejects (reason : js_error)
  | Resolves (r : Response).

Inductive console_arg : Type :=
  | Text (s : string)
  | Shown (v : value)
  | Thrown (e : js_error).

Inductive console_entry : Type :=
  | Log (args : list console_arg)
  | Err (args : list console_arg).

(** The argument of [startAutoUpdate]: a function, named so that its
    invocations can be told apart, or anything else. *)
Inductive callback : Type :=
  | Function (name : string)
  | NotCallable (v : value).

Record timer : Type := {
  handle : positive;
  timer_callback : callback;
  delay : Z;
  due : Z
}.

(** One run of a callback: the timer that fired, the function, the time. *)
Record invocation : Type := {
  fired_by : positive;
  fired_function : string;
  fired_at : Z
}.

Record world : Type := {
  network : string -> settled;
  now : Z;
  console : list console_entry;
  heap : gmap loc EquipmentRecord;
  timers : list timer;
  next_handle : positive;
  calls : list invocation
}.

Definition with_console (c : list console_entry) (w : world) : world :=
  {| network := network w; now := now w; console := c; heap := heap w;
     timers := timers w; next_handle := next_handle w; calls := calls w |}.

Definition with_heap (h : gmap loc EquipmentRecord) (w : world) : world :=
  {| network := network w; now := now w; console := console w; heap := h;
     timers := timers w; next_handle := next_handle w; calls := calls w |}.

Definition with_timers (ts : list timer) (n : positive) (w : world) : world :=
  {| network := network w; now := now w; console := console w; heap := heap w;
     timers := ts; next_handle := n; calls := calls w |}.

(** ** The monad: a world in, a value or a thrown error and a world out.
    [await] is sequencing. *)
Definition M (A : Type) : Type := world -> outcome A * world.

Definition ret {A : Type} (a : A) : M A := fun w => (Val a, w).

Definition throw {A : Type} (e : js_error) : M A := fun w => (Exn e, w).

Definition bind {A B : Type} (m : M A) (k : A -> M B) : M B :=
  fun w =>
    match m w with
    | (Val a, w') => k a w'
    | (Exn e, w') => (Exn e, w')
    end.

(** [try { m } catch (error) { handler }] *)
Definition try_catch {A : Type} (m : M A) (handler : js_error -> M A) : M A :=
  fun w =>
    match m w with
    | (Val a, w') => (Val a, w')
    | (Exn e, w') => handler e w'
    end.

Declare Scope js_scope.
Delimit Scope js_scope with js.
Notation "'let!' x ':=' m 'in' k" := (bind m (fun x => k))
  (at level 10, x name, m at level 100, k at level 200) : js_scope.
Notation "m ';;;' k" := (bind m (fun _ => k))
  (at level 100, k at level 200, right associativity) : js_scope.
Open Scope js_scope.

(** An evaluation that does not touch the world. *)
Definition settle {A : Type} (o : outcome A) : M A := fun w => (o, w).

(** [when c m]: [if (c) { m }] *)
Definition when (c : bool) (m : M unit) : M unit := if c then m else ret tt.

(** [l.forEach(body)] *)
Fixpoint forEach {A : Type} (l : list A) (body : A -> M unit) : M unit :=
  match l with
  | [] => ret tt
  | x :: rest => body x ;;; forEach rest body
  end.

(** ** Host operations the module calls *)

Definition console_log (args : list console_arg) : M unit :=
  fun w => (Val tt, with_console (console w ++ [Log args]) w).

Definition console_error (args : list console_arg) : M unit :=
  fun w => (Val tt, with_console (console w ++ [Err args]) w).

(** [await fetch(url)] *)
Definition fetch (url : string) : M Response :=
  fun w =>
    match network w url with
    | Rejects reason => (Exn reason, w)
    | Resolves r => (Val r, w)
    end.

(** [await response.json()] *)
Definition Response_json (r : Response) : M value :=
  fun w => (json r, w).

(** [new Date()]: the current time value. *)
Definition Date_now : M Z := fun w => (Val (now w), w).

(** [new Error(message)] *)
Definition new_Error (message : string) : js_error :=
  {| error_name := "Error"; error_message := message |}.

Definition TypeError (message : string) : js_error :=
  {| error_name := "TypeError"; error_message := message |}.

(** Number::toString on an integer of magnitude below 1e21: its decimal
    digits, with a minus sign when negative. *)
Definition show_Z (z : Z) : string := NilZero.string_of_int (Z.to_int z).

(** The numbers [getIoTStatus] computes with are time values and what it
    derives from them: an integer, or NaN ([None]).  A time value is an
    integer of magnitude at most 8.64e15 and the clock reads far less, so the
    difference of the two stays below 2^53 and is exact in double arithmetic;
    a quotient of such an integer by 60000 or by 60 that is not whole lies
    further from the nearest integer than its rounding error, so
    [Math.floor] of the rounded quotient is the floor of the exact one; and
    the remainder is exact.  The operations are written on [Z]. *)
Definition number : Type := option Z.

Definition show_number (x : number) : string :=
  match x with
  | Some z => show_Z z
  | None => "NaN"
  end.

(** [x - y] *)
Definition minus (x y : number) : number :=
  match x, y with
  | Some a, Some b => Some (a - b)
  | _, _ => None
  end.

(** [Math.floor(x / d)] for a positive constant [d] *)
Definition floor_div (x : number) (d : Z) : number :=
  match x with
  | Some a => Some (a / d)
  | None => None
  end.

(** [x % d]: the remainder has the sign of the dividend *)
Definition remainder (x : number) (d : Z) : number :=
  match x with
  | Some a => Some (Z.rem a d)
  | None => None
  end.

(** [x > c]: false when [x] is NaN *)
Definition greater (x : number) (c : Z) : bool :=
  match x with
  | Some a => c <? a
  | None => false
  end.

Section Methods.

Context `{Host}.

(** The value of [o[k]] for a receiver that is neither [null] nor
    [undefined]: an own property of a plain object, else what its prototype
    provides, else [undefined]. *)
Definition property (o : value) (k : string) : value :=
  match o with
  | VObj m =>
      match m !! k with
      | Some v => v
      | None => if bool_decide (k ∈ Object_prototype) then VHost k else VUndef
      end
  | _ => exotic_get o k
  end.

(** [o[k]]: reading a property of [null] or [undefined] throws. *)
Definition Get (o : value) (k : string) : M value :=
  match o with
  | VUndef => throw (TypeError (type_error_message (ReadOfNullish IsUndefined k)))
  | VNull => throw (TypeError (type_error_message (ReadOfNullish IsNull k)))
  | _ => ret (property o k)
  end.

(** [new Date(v)]: an Invalid Date for [undefined], else what the host's
    constructor makes of [v], which may be to throw. *)
Definition new_Date (v : value) : outcome number :=
  match v with
  | VUndef => Val None
  | _ => Date_value v
  end.

(** [d.toLocaleString()] *)
Definition toLocaleString (d : number) : string :=
  match d with
  | Some t => locale_format t
  | None => "Invalid Date"
  end.

(** Reading and writing the fields of the record an array element refers to.
    A location that holds no record stands for an element that is [null] or
    [undefined]: touching a property of it throws. *)
Definition read_equipmentNumber (equipment : loc) : M string :=
  fun w =>
    match heap w !! equipment with
    | Some r => (Val (equipmentNumber r), w)
    | None =>
        (Exn (TypeError (type_error_message
                           (ReadOfElement equipment "equipmentNumber"))), w)
    end.

(** [equipment.key = v], with [set] the assignment to that property: the
    record is replaced in the heap by the one the assignment gives, or the
    assignment throws and the record stays as it is. *)
Definition write_field (key : string)
    (set : EquipmentRecord -> type_error + EquipmentRecord) (equipment : loc) : M unit :=
  fun w =>
    match heap w !! equipment with
    | Some r =>
        match set r with
        | inr r' => (Val tt, with_heap (<[equipment := r']> (heap w)) w)
        | inl e => (Exn (TypeError (type_error_message e)), w)
        end
    | None => (Exn (TypeError (type_error_message (WriteToElement equipment key))), w)
    end.

(** The delay a repeating timer runs at when asked for [d]: from 4 to
    2147483647 ms every host runs it at [d]; outside that range hosts
    differ. *)
Definition timer_delay (d : Z) : Z :=
  if (4 <=? d) && (d <=? 2147483647) then d else unusual_delay d.

(** [setInterval(callback, delay)]: a fresh handle; first due one delay from
    now. *)
Definition setInterval (cb : callback) (d : Z) : M positive :=
  fun w =>
    let h := next_handle w in
    (Val h,
     with_timers
       (timers w ++ [ {| handle := h; timer_callback := cb; delay := timer_delay d;
                         due := now w + timer_delay d |} ])
       (Pos.succ h) w).

(** [clearInterval(h)] *)
Definition clearInterval (h : positive) : M unit :=
  fun w =>
    (Val tt,
     with_timers (filter (fun t => handle t ≠ h) (timers w)) (next_handle w) w).

(** ** The methods of [IoTIntegration] *)

(** [async fetchIoTData()] *)
Definition fetchIoTData (this : IoTIntegration) : M value :=
  try_catch
    (let! response := fetch (iotDataFile this) in
     when (negb (ok response))
       (throw (new_Error ("HTTP error! status: " +:+ show_Z (status response)))) ;;;
     let! data := Response_json response in
     console_log [Text "IoT data fetched:"; Shown data] ;;;
     ret data)
    (fun error =>
       console_error [Text "Error fetching IoT data:"; Thrown error] ;;;
       ret VNull).

(** [!iotData || !iotData.equipment_mapping] *)
Definition nothing_to_merge (iotData : value) : M bool :=
  if negb (truthy iotData) then ret true
  else
    let! mapping := Get iotData "equipment_mapping" in
    ret (negb (truthy mapping)).

(** [deviceId && deviceId === iotData.device_id], as a condition *)
Definition same_device (iotData deviceId : value) : M bool :=
  if truthy deviceId then
    let! device_id := Get iotData "device_id" in
    ret (strict_equal deviceId device_id)
  else ret false.

(** The body of the [forEach] callback. *)
Definition update_one (iotData : value) (equipment : loc) : M unit :=
  let! mapping := Get iotData "equipment_mapping" in
  let! number := read_equipmentNumber equipment in
  let! deviceId := Get mapping number in
  let! matched := same_device iotData deviceId in
  when matched
    (let! current_hours := Get iotData "current_hours" in
     write_field "currentHours" (set_currentHours current_hours) equipment ;;;
     let! last_updated := Get iotData "last_updated" in
     write_field "lastIoTUpdate" (set_lastIoTUpdate last_updated) equipment ;;;
     let! number := read_equipmentNumber equipment in
     let! current_hours := Get iotData "current_hours" in
     let! hours := settle (ToString current_hours) in
     console_log
       [Text ("Updated equipment " +:+ number +:+ " with " +:+ hours +:+ " hours")]).

(** [async updateEquipmentWithIoTData(equipmentData)]: the array is a list of
    references into the heap, and is returned as it came. *)
Definition updateEquipmentWithIoTData (this : IoTIntegration)
    (equipmentData : list loc) : M (list loc) :=
  let! iotData := fetchIoTData this in
  let! nothing := nothing_to_merge iotData in
  if nothing then
    console_log [Text "No IoT data available or no equipment mapping"] ;;;
    ret equipmentData
  else
    forEach equipmentData (update_one iotData) ;;;
    ret equipmentData.

(** [async getIoTStatus()]: the object literal it returns, as a map from
    property name to value. *)
Definition getIoTStatus (this : IoTIntegration) : M (gmap string value) :=
  let! iotData := fetchIoTData this in
  if negb (truthy iotData) then
    ret {[ "status" := VStr "offline";
           "message" := VStr "IoT data unavailable";
           "lastUpdate" := VStr "Never" ]}
  else
    let! last_updated := Get iotData "last_updated" in
    let! lastUpdate := settle (new_Date last_updated) in
    let! current := Date_now in
    let timeDiff := minus (Some current) lastUpdate in
    let minutesDiff := floor_div timeDiff (1000 * 60) in
    let status := "online" in
    let message := "IoT data current (" +:+ show_number minutesDiff +:+ " min ago)" in
    let '(status, message) :=
      if greater minutesDiff 60 then
        ("stale",
         "IoT data stale (" +:+ show_number (floor_div minutesDiff 60) +:+ "h "
         +:+ show_number (remainder minutesDiff 60) +:+ "m ago)")
      else (status, message) in
    let '(status, message) :=
      if greater minutesDiff 1440 then ("offline", "IoT data very old (>24h)")
      else (status, message) in
    let! device_id := Get iotData "device_id" in
    let! current_hours := Get iotData "current_hours" in
    ret {[ "status" := VStr status;
           "message" := VStr message;
           "lastUpdate" := VStr (toLocaleString lastUpdate);
           "deviceId" := device_id;
           "currentHours" := current_hours ]}.

(** [startAutoUpdate(callback)]: returns the instance as the call leaves it.
    The function handed to [setInterval] runs [callback] when
    [typeof callback === 'function'] and does nothing otherwise; the timer
    keeps [callback] itself, and [tick] below makes that test. *)
Definition startAutoUpdate (this : IoTIntegration) (cb : callback) : M IoTIntegration :=
  if autoUpdateEnabled this then
    console_log [Text "Auto-update already enabled"] ;;;
    ret this
  else
    let this := {| iotDataFile := iotDataFile this;
                   updateInterval := updateInterval this;
                   autoUpdateEnabled := true;
                   updateTimer := updateTimer this |} in
    console_log [Text "Starting IoT auto-update..."] ;;;
    let! h := setInterval cb (updateInterval this) in
    ret {| iotDataFile := iotDataFile this;
           updateInterval := updateInterval this;
           autoUpdateEnabled := autoUpdateEnabled this;
           updateTimer := SlotHandle h |}.

(** [stopAutoUpdate()] *)
Definition stopAutoUpdate (this : IoTIntegration) : M IoTIntegration :=
  match updateTimer this with
  | SlotHandle h =>
      clearInterval h ;;;
      let this := {| iotDataFile := iotDataFile this;
                     updateInterval := updateInterval this;
                     autoUpdateEnabled := autoUpdateEnabled this;
                     updateTimer := SlotNull |} in
      let this := {| iotDataFile := iotDataFile this;
                     updateInterval := updateInterval this;
                     autoUpdateEnabled := false;
                     updateTimer := updateTimer this |} in
      console_log [Text "IoT auto-update stopped"] ;;;
      ret this
  | _ => ret this
  end.

(** [async refreshIoTData()] *)
Definition refreshIoTData (this : IoTIntegration) : M value :=
  console_log [Text "Manually refreshing IoT data..."] ;;;
  fetchIoTData this.

End Methods.

(** ** Time passing

    The timer table is the host's.  [tick] lets one millisecond pass: every
    timer that is due runs once and is due again one [delay] later.  Running
    a timer runs the function [startAutoUpdate] handed to [setInterval]: it
    calls the callback if [typeof callback === 'function'], and the call is
    recorded in [calls].  What the callback itself does is its owner's
    business and is not modelled. *)
Definition fire (t_now : Z) (t : timer) : timer * list invocation :=
  if due t <=? t_now then
    ({| handle := handle t; timer_callback := timer_callback t;
        delay := delay t; due := t_now + delay t |},
     match timer_callback t with
     | Function f => [ {| fired_by := handle t; fired_function := f; fired_at := t_now |} ]
     | NotCallable _ => []
     end)
  else (t, []).

Definition tick (w : world) : world :=
  let t_now := now w + 1 in
  let fired := map (fire t_now) (timers w) in
  {| network := network w; now := t_now; console := console w; heap := heap w;
     timers := map fst fired; next_handle := next_handle w;
     calls := calls w ++ concat (map snd fired) |}.

Definition elapse (ms : nat) (w : world) : world := Nat.iter ms tick w.

(** The invocations a timer of period [d], started at time [t0], makes in the
    [ms] milliseconds that follow: one at each whole multiple of [d]. *)
Definition expected_calls (h : positive) (f : string) (t0 d : Z) (ms : nat) : list invocation :=
  map (fun k : nat => {| fired_by := h; fired_function := f; fired_at := t0 + Z.of_nat k * d |})
      (seq 1 (Z.to_nat (Z.of_nat ms / d))).

(** ** Vocabulary of the specification *)

Section Vocabulary.

Context `{Host}.

(** The condition under which the [forEach] callback writes to a record. *)
Definition receives_reading (iotData : value) (r : EquipmentRecord) : bool :=
  let deviceId := property (property iotData "equipment_mapping") (equipmentNumber r) in
  truthy deviceId && strict_equal deviceId (property iotData "device_id").

(** The property [f] of an object takes an assignment. *)
Definition takes (is_extensible : bool) (f : field) : bool :=
  match f with
  | Data _ writable => writable
  | Absent => is_extensible
  end.

(** The record takes the two assignments of the merge: as every ordinary
    object does, and as a frozen one does not. *)
Definition accepts (r : EquipmentRecord) : bool :=
  takes (extensible r) (currentHours r) && takes (extensible r) (lastIoTUpdate r).

(** The record after the two assignments, when it takes them. *)
Definition merged (iotData : value) (r : EquipmentRecord) : EquipmentRecord :=
  {| equipmentNumber := equipmentNumber r;
     currentHours := Data (property iotData "current_hours") true;
     lastIoTUpdate := Data (property iotData "last_updated") true;
     extensible := extensible r;
     other_fields := other_fields r |}.

(** The specification's condition: the record's number is a key of the
    mapping and the identifier it maps to is the document's [device_id]. *)
Definition mapped_to_device (doc mapping : gmap string value) (r : EquipmentRecord) : Prop :=
  exists d, mapping !! equipmentNumber r = Some d /\ doc !! "device_id" = Some d.

End Vocabulary.

(** A TelemetryDocument with all four required fields. *)
Definition has_required_fields (v : value) : bool :=
  match v with
  | VObj doc =>
      bool_decide (is_Some (doc !! "device_id"))
      && bool_decide (is_Some (doc !! "equipment_mapping"))
      && bool_decide (is_Some (doc !! "current_hours"))
      && bool_decide (is_Some (doc !! "last_updated"))
  | _ => false
  end.

(** The error [fetchIoTData] catches, if any: the rejection of [fetch], the
    error it throws itself on a response that is not [ok], or the rejection
    of [json()]. *)
Definition caught (s : settled) : option js_error :=
  match s with
  | Rejects reason => Some reason
  | Resolves r =>
      if ok r then
        match json r with
        | Val _ => None
        | Exn e => Some e
        end
      else Some (new_Error ("HTTP error! status: " +:+ show_Z (status r)))
  end.

Definition logged (entry : console_entry) (w : world) : world :=
  with_console (console w ++ [entry]) w.

(** The three ways a retrieval fails: the request is rejected, the response
    is not [ok], or its body does not parse. *)
Definition retrieval_fails (s : settled) : Prop :=
  (exists reason, s = Rejects reason)
  \/ (exists r, s = Resolves r /\ ok r = false)
  \/ (exists r e, s = Resolves r /\ ok r = true /\ json r = Exn e).

(** The whole minutes between the clock and a time value. *)
Definition elapsed_minutes (t_now t : Z) : Z := (t_now - t) / 60000.

(** The invocations made through the timer with handle [h]. *)
Definition calls_of (h : positive) (w : world) : list invocation :=
  filter (fun i => fired_by i = h) (calls w).

(** No timer of the table has the handle [h]. *)
Definition no_timer (h : positive) (w : world) : Prop :=
  forall t, t ∈ timers w -> handle t <> h.

(** The state of a world [ms] milliseconds after a timer with handle [h],
    function [f] and period [d] was set at time [t0]: the timer is last in the
    table, due at the next whole multiple of [d], and has made the expected
    calls on top of those in [base]. *)
Definition polling (h : positive) (f : string) (d t0 : Z) (base : list invocation)
    (ms : nat) (w : world) : Prop :=
  exists ts,
    timers w
    = (ts ++ [ {| handle := h; timer_callback := Function f; delay := d;
                  due := t0 + (Z.of_nat ms / d + 1) * d |} ])%list
    /\ (forall t, t ∈ ts -> handle t <> h)
    /\ now w = t0 + Z.of_nat ms
    /\ calls_of h w = (base ++ expected_calls h f t0 d ms)%list.

(** The merge property as the specification words it. *)
Definition merge_as_specified : Prop :=
  forall (host : Host) this equipmentData doc mapping w w1 w',
    fetchIoTData this w = (Val (VObj doc), w1) ->
    doc !! "equipment_mapping" = Some (VObj mapping) ->
    updateEquipmentWithIoTData this equipmentData w = (Val equipmentData, w') ->
    forall l r, l ∈ equipmentData -> heap w !! l = Some r ->
      (mapped_to_device doc mapping r ->
         exists r' writable writable', heap w' !! l = Some r'
           /\ currentHours r' = Data (property (VObj doc) "current_hours") writable
           /\ lastIoTUpdate r' = Data (property (VObj doc) "last_updated") writable')
      /\ (~ mapped_to_device doc mapping r -> heap w' !! l = Some r).

(** The guarantee on what a successful retrieval returns, as the
    specification words it. *)
Definition fetch_as_specified : Prop :=
  forall (host : Host) this w r v w',
    network w (iotDataFile this) = Resolves r ->
    ok r = true ->
    fetchIoTData this w = (Val v, w') ->
    v = VNull \/ has_required_fields v = true.

(** ** Vocabulary for sessions and logs *)

Section Sessions.

Context `{Host}.

(** The document can be merged: the two tests of [updateEquipmentWithIoTData]
    both pass. *)
Definition mergeable (iotData : value) : bool :=
  truthy iotData && truthy (property iotData "equipment_mapping").

(** The console line written for a record that receives the reading, with
    [hours] the text of the document's [current_hours]. *)
Definition update_line (hours : string) (r : EquipmentRecord) : console_entry :=
  Log [Text ("Updated equipment " +:+ equipmentNumber r +:+ " with "
             +:+ hours +:+ " hours")].

(** The lines written for an array, one for each position whose record
    receives the reading, in the order of the array. *)
Definition update_lines (hours : string) (iotData : value)
    (h : gmap loc EquipmentRecord) (equipmentData : list loc) : list console_entry :=
  flat_map
    (fun l =>
       match h !! l with
       | Some r => if receives_reading iotData r then [update_line hours r] else []
       | None => []
       end)
    equipmentData.

(** Every element of the array is a record, and those that receive the
    reading take the two assignments. *)
Definition mergeable_records (iotData : value) (h : gmap loc EquipmentRecord)
    (equipmentData : list loc) : Prop :=
  forall l, l ∈ equipmentData ->
    exists r, h !! l = Some r /\ (receives_reading iotData r = true -> accepts r = true).

(** The element [l] of the array refers to a record that receives the
    reading. *)
Definition matches (iotData : value) (h : gmap loc EquipmentRecord) (l : loc) : bool :=
  match h !! l with
  | Some r => receives_reading iotData r
  | None => false
  end.

(** What no call changes in a record: a record stays a record, with its
    [equipmentNumber], the caller's own fields and its extensibility; and a
    record that is not [touched] stays as it is. *)
Definition kept_record (touched : bool) (o o' : option EquipmentRecord) : Prop :=
  match o, o' with
  | Some r, Some r' =>
      equipmentNumber r' = equipmentNumber r
      /\ other_fields r' = other_fields r
      /\ extensible r' = extensible r
      /\ (touched = false -> r' = r)
  | None, None => True
  | _, _ => False
  end.

(** What a merge of [equipmentData] keeps of the world, however it ends. *)
Definition keeps (equipmentData : list loc) (w w' : world) : Prop :=
  network w' = network w
  /\ now w' = now w
  /\ timers w' = timers w
  /\ next_handle w' = next_handle w
  /\ calls w' = calls w
  /\ forall l, kept_record (bool_decide (l ∈ equipmentData)) (heap w !! l) (heap w' !! l).

(** A computation that keeps, on every world and however it ends. *)
Definition keeping {A : Type} (ed : list loc) (m : M A) : Prop :=
  forall w, keeps ed w (snd (m w)).

(** What becomes of a record at location [l] when [equipmentData] is merged
    with [iotData]. *)
Definition after_merge (iotData : value) (equipmentData : list loc) (l : loc)
    (r : EquipmentRecord) : EquipmentRecord :=
  if mergeable iotData && bool_decide (l ∈ equipmentData) && receives_reading iotData r
  then merged iotData r else r.

(** What a caller does with one instance over time. *)
Inductive action : Type :=
  | Start (cb : callback)
  | Stop
  | Wait (ms : nat).

Definition perform (a : action) (this : IoTIntegration) : M IoTIntegration :=
  match a with
  | Start cb => startAutoUpdate this cb
  | Stop => stopAutoUpdate this
  | Wait ms => fun w => (Val this, elapse ms w)
  end.

Fixpoint session (actions : list action) (this : IoTIntegration) : M IoTIntegration :=
  match actions with
  | [] => ret this
  | a :: rest => let! this := perform a this in session rest this
  end.

(** The instance and the timer table agree: besides the timers of others,
    whose handles are [others], the table holds one timer when the instance
    is enabled, under the handle kept in [updateTimer], and none when it is
    not; and every handle in use is below the next one to be given out. *)
Definition in_step (others : list positive) (this : IoTIntegration) (w : world) : Prop :=
  match updateTimer this with
  | SlotHandle h =>
      autoUpdateEnabled this = true
      /\ map handle (timers w) = (others ++ [h])%list
      /\ h ∉ others
  | _ =>
      autoUpdateEnabled this = false
      /\ map handle (timers w) = others
  end
  /\ forall x, x ∈ map handle (timers w) -> (x < next_handle w)%positive.

(** No timer with handle [h] carries a function. *)
Definition nothing_to_call (h : positive) (w : world) : Prop :=
  forall t, t ∈ timers w -> handle t = h -> exists v, timer_callback t = NotCallable v.

End Sessions.

(** ** Worked inputs *)

(** A host for the worked examples, answering on the values the examples
    use: it reads one timestamp, prints strings and positive integers, fails
    to convert objects and arrays to a primitive, provides nothing on exotic
    receivers, words its TypeErrors as V8 does (taking the array elements
    that are not records to be [undefined]) and runs unusual delays at 1 ms
    as Node does. *)
Definition sample_host : Host :=
  {| ToString := fun v =>
       match v with
       | VStr s => Val s
       | VNum (S754_finite false m 0) => Val (show_Z (Z.pos m))
       | VNull => Val "null"
       | VBool true => Val "true"
       | VBool false => Val "false"
       | VObj _ | VArr _ => Exn (TypeError "Cannot convert object to primitive value")
       | _ => Val "undefined"
       end;
     Date_value := fun v =>
       match v with
       | VStr "2024-01-01T00:00:00.000Z" => Val (Some 1704067200000)
       | VNull | VBool false => Val (Some 0)
       | VBool true => Val (Some 1)
       | VObj _ | VArr _ => Exn (TypeError "Cannot convert object to primitive value")
       | _ => Val None
       end;
     locale_format := show_Z;
     exotic_get := fun _ _ => VUndef;
     type_error_message := fun e =>
       match e with
       | ReadOfNullish IsNull k => "Cannot read properties of null (reading '" +:+ k +:+ "')"
       | ReadOfNullish IsUndefined k | ReadOfElement _ k =>
           "Cannot read properties of undefined (reading '" +:+ k +:+ "')"
       | WriteToElement _ k => "Cannot set properties of undefined (setting '" +:+ k +:+ "')"
       | WriteToReadOnly k => "Cannot assign to read only property '" +:+ k +:+ "'"
       | AddToNonExtensible k => "Cannot add property " +:+ k +:+ ", object is not extensible"
       end;
     unusual_delay := fun _ => 1 |}.

Definition five : value := VNum (S754_finite false 5 0).

(** [{"device_id": "dev-1", "equipment_mapping": {"EX-100": "dev-1",
    "EX-200": "dev-2"}, "current_hours": 5,
    "last_updated": "2024-01-01T00:00:00.000Z"}] *)
Definition sample_document : value :=
  VObj {[ "device_id" := VStr "dev-1";
          "equipment_mapping" :=
            VObj {[ "EX-100" := VStr "dev-1"; "EX-200" := VStr "dev-2" ]};
          "current_hours" := five;
          "last_updated" := VStr "2024-01-01T00:00:00.000Z" ]}.

(** [{"device_id": "", "equipment_mapping": {"EX-100": ""},
    "current_hours": 5, "last_updated": "2024-01-01T00:00:00.000Z"}] *)
Definition unnamed_device_document : gmap string value :=
  {[ "device_id" := VStr "";
     "equipment_mapping" := VObj {[ "EX-100" := VStr "" ]};
     "current_hours" := five;
     "last_updated" := VStr "2024-01-01T00:00:00.000Z" ]}.

(** [{"device_id": "dev-1", "current_hours": 5}] *)
Definition partial_document : value :=
  VObj {[ "device_id" := VStr "dev-1"; "current_hours" := five ]}.

Definition record_of (number : string) : EquipmentRecord :=
  {| equipmentNumber := number; currentHours := Absent; lastIoTUpdate := Absent;
     extensible := true;
     other_fields := {[ "description" := VStr "excavator" ]} |}.

(** The same record after [Object.freeze]. *)
Definition frozen_record_of (number : string) : EquipmentRecord :=
  {| equipmentNumber := number; currentHours := Absent; lastIoTUpdate := Absent;
     extensible := false;
     other_fields := {[ "description" := VStr "excavator" ]} |}.

(** The record as a merge of [sample_document] leaves it. *)
Definition merged_record_of (number : string) : EquipmentRecord :=
  {| equipmentNumber := number;
     currentHours := Data (VNum (S754_finite false 5 0)) true;
     lastIoTUpdate := Data (VStr "2024-01-01T00:00:00.000Z") true;
     extensible := true;
     other_fields := {[ "description" := VStr "excavator" ]} |}.

(** [{"device_id": "dev-1", "equipment_mapping": null, "current_hours": 5}] *)
Definition null_mapping_document : gmap string value :=
  {[ "device_id" := VStr "dev-1"; "equipment_mapping" := VNull;
     "current_hours" := five ]}.

(** The two maps of [sample_document]. *)
Definition sample_mapping : gmap string value :=
  {[ "EX-100" := VStr "dev-1"; "EX-200" := VStr "dev-2" ]}.

Definition sample_fields : gmap string value :=
  {[ "device_id" := VStr "dev-1";
     "equipment_mapping" := VObj sample_mapping;
     "current_hours" := five;
     "last_updated" := VStr "2024-01-01T00:00:00.000Z" ]}.

(** [{"toString": 0}], an object that cannot be converted to a primitive:
    its own [toString] is not callable and the inherited [valueOf] returns
    the object. *)
Definition unconvertible : value :=
  VObj {[ "toString" := VNum (S754_zero false) ]}.

(** [sample_document] with [{"toString": 0}] for [current_hours]. *)
Definition unprintable_hours_document : value :=
  VObj {[ "device_id" := VStr "dev-1";
          "equipment_mapping" :=
            VObj {[ "EX-100" := VStr "dev-1"; "EX-200" := VStr "dev-1" ]};
          "current_hours" := unconvertible;
          "last_updated" := VStr "2024-01-01T00:00:00.000Z" ]}.

(** [sample_document] with [{"toString": 0}] for [last_updated]. *)
Definition undatable_document : value :=
  VObj {[ "device_id" := VStr "dev-1";
          "current_hours" := five;
          "last_updated" := unconvertible ]}.

(** [sample_world] with the first record frozen. *)
Definition frozen_world (net : string -> settled) : world :=
  {| network := net;
     now := 1704067200000;
     console := [];
     heap := {[ 1%positive := frozen_record_of "EX-100";
                2%positive := record_of "EX-200" ]};
     timers := [];
     next_handle := 1%positive;
     calls := [] |}.

(** An instance as [startAutoUpdate] leaves it. *)
Definition started : IoTIntegration :=
  {| iotDataFile := "iot_data.json"; updateInterval := 30000;
     autoUpdateEnabled := true; updateTimer := SlotHandle 1%positive |}.

(** A server answering every request with status 200 and the given body. *)
Definition serving (body : value) : string -> settled :=
  fun _ => Resolves {| ok := true; status := 200; json := Val body |}.

Definition answering (s : Z) : string -> settled :=
  fun _ => Resolves {| ok := false; status := s; json := Val VNull |}.

Definition unreachable : string -> settled :=
  fun _ => Rejects (TypeError "Failed to fetch").

Definition garbled : string -> settled :=
  fun _ => Resolves {| ok := true; status := 200;
                       json := Exn {| error_name := "SyntaxError";
                                      error_message := "Unexpected token" |} |}.

(** A world with two equipment records, no timers, and the clock [minutes]
    minutes past the sample timestamp. *)
Definition sample_world (net : string -> settled) (minutes : Z) : world :=
  {| network := net;
     now := 1704067200000 + minutes * 60000;
     console := [];
     heap := {[ 1%positive := record_of "EX-100"; 2%positive := record_of "EX-200" ]};
     timers := [];
     next_handle := 1%positive;
     calls := [] |}.

(** * Properties *)

Section Properties.

Context `{Host}.

Implicit Types (this : IoTIntegration) (w : world) (iotData : value).

(** ** Retrieval *)

Lemma retrieval_fails_caught (s : settled) :
  retrieval_fails s -> exists e, caught s = Some e.
Proof.
  intros [(reason & ->) | [(r & -> & Hok) | (r & e & -> & Hok & Hjson)]]; simpl.
  - eauto.
  - rewrite Hok. eauto.
  - rewrite Hok, Hjson. eauto.
Qed.

Lemma fetchIoTData_failure this w e :
  caught (network w (iotDataFile this)) = Some e ->
  fetchIoTData this w
  = (Val VNull, logged (Err [Text "Error fetching IoT data:"; Thrown e]) w).
Proof.
  unfold caught, fetchIoTData, try_catch, bind, fetch, when, Response_json.
  destruct (network w (iotDataFile this)) as [reason | r]; simpl.
  - intros [= ->]. reflexivity.
  - destruct (ok r); simpl.
    + destruct (json r) as [data | e']; simpl; [discriminate |].
      intros [= ->]. reflexivity.
    + intros [= <-]. reflexivity.
Qed.

Lemma fetchIoTData_success this w r data :
  network w (iotDataFile this) = Resolves r ->
  ok r = true ->
  json r = Val data ->
  fetchIoTData this w
  = (Val data, logged (Log [Text "IoT data fetched:"; Shown data]) w).
Proof.
  intros Hnet Hok Hjson.
  unfold fetchIoTData, try_catch, bind, fetch, when, Response_json.
  rewrite Hnet; simpl. rewrite Hok; simpl. rewrite Hjson; simpl.
  reflexivity.
Qed.

(** Whatever happens, [fetchIoTData] returns, and has only written to the
    console. *)
Lemma fetchIoTData_returns this w :
  exists data entry, fetchIoTData this w = (Val data, logged entry w).
Proof.
  destruct (caught (network w (iotDataFile this))) as [e |] eqn:Hc.
  - eexists _, _. apply fetchIoTData_failure, Hc.
  - unfold caught in Hc.
    destruct (network w (iotDataFile this)) as [reason | r] eqn:Hnet; [discriminate |].
    destruct (ok r) eqn:Hok; [| discriminate].
    destruct (json r) as [data | e] eqn:Hjson; [| discriminate].
    eexists _, _. eapply fetchIoTData_success; eassumption.
Qed.

Lemma fetchIoTData_frame this w data w1 :
  fetchIoTData this w = (Val data, w1) ->
  exists entry, w1 = logged entry w.
Proof.
  destruct (fetchIoTData_returns this w) as (data' & entry & Hrun).
  rewrite Hrun. intros [= _ <-]. eauto.
Qed.

Lemma Get_defined (o : value) (k : string) :
  truthy o = true -> Get o k = ret (property o k).
Proof. destruct o; simpl; intros; try discriminate; reflexivity. Qed.

Lemma updateEquipmentWithIoTData_absent this w w1 iotData (equipmentData : list loc) :
  fetchIoTData this w = (Val iotData, w1) ->
  truthy iotData = false ->
  updateEquipmentWithIoTData this equipmentData w
  = (Val equipmentData,
     logged (Log [Text "No IoT data available or no equipment mapping"]) w1).
Proof.
  intros Hfetch Hfalsy.
  unfold updateEquipmentWithIoTData, bind. rewrite Hfetch.
  unfold nothing_to_merge. rewrite Hfalsy. reflexivity.
Qed.

Lemma getIoTStatus_absent this w w1 iotData :
  fetchIoTData this w = (Val iotData, w1) ->
  truthy iotData = false ->
  getIoTStatus this w
  = (Val {[ "status" := VStr "offline";
            "message" := VStr "IoT data unavailable";
            "lastUpdate" := VStr "Never" ]}, w1).
Proof.
  intros Hfetch Hfalsy.
  unfold getIoTStatus, bind. rewrite Hfetch, Hfalsy. reflexivity.
Qed.

Lemma refreshIoTData_run this w :
  refreshIoTData this w
  = fetchIoTData this (logged (Log [Text "Manually refreshing IoT data..."]) w).
Proof. reflexivity. Qed.

(** The console is not an input of the retrieval. *)
Lemma fetchIoTData_logged this w entry :
  fst (fetchIoTData this (logged entry w)) = fst (fetchIoTData this w).
Proof.
  destruct (caught (network w (iotDataFile this))) as [e |] eqn:Hc.
  - rewrite (fetchIoTData_failure this w e Hc).
    rewrite (fetchIoTData_failure this (logged entry w) e Hc). reflexivity.
  - unfold caught in Hc.
    destruct (network w (iotDataFile this)) as [reason | r] eqn:Hnet; [discriminate |].
    destruct (ok r) eqn:Hok; [| discriminate].
    destruct (json r) as [data | e] eqn:Hjson; [| discriminate].
    rewrite (fetchIoTData_success this w r data Hnet Hok Hjson).
    rewrite (fetchIoTData_success this (logged entry w) r data Hnet Hok Hjson).
    reflexivity.
Qed.

(** C4.  [fetchIoTData] always returns a value and never throws.  When the
    request is rejected it writes the reason of the rejection to the console
    and returns [null]; when the response is not ok it writes the Error it
    made of the status and returns [null]; when the body does not parse it
    writes the error of [json()] and returns [null].  In each of the three
    cases [updateEquipmentWithIoTData], [getIoTStatus] and [refreshIoTData]
    return normally too: the array as it came, the report that the data is
    unavailable, and [null]. *)
Theorem fetchIoTData_never_throws this w (equipmentData : list loc) :
  (exists data w', fetchIoTData this w = (Val data, w'))
  /\ (forall reason,
        network w (iotDataFile this) = Rejects reason ->
        fetchIoTData this w
        = (Val VNull, logged (Err [Text "Error fetching IoT data:"; Thrown reason]) w))
  /\ (forall r,
        network w (iotDataFile this) = Resolves r ->
        ok r = false ->
        fetchIoTData this w
        = (Val VNull,
           logged (Err [Text "Error fetching IoT data:";
                        Thrown (new_Error ("HTTP error! status: "
                                           +:+ show_Z (status r)))]) w))
  /\ (forall r e,
        network w (iotDataFile this) = Resolves r ->
        ok r = true ->
        json r = Exn e ->
        fetchIoTData this w
        = (Val VNull, logged (Err [Text "Error fetching IoT data:"; Thrown e]) w))
  /\ (retrieval_fails (network w (iotDataFile this)) ->
      exists e,
        let w1 := logged (Err [Text "Error fetching IoT data:"; Thrown e]) w in
        caught (network w (iotDataFile this)) = Some e
        /\ fetchIoTData this w = (Val VNull, w1)
        /\ updateEquipmentWithIoTData this equipmentData w
           = (Val equipmentData,
              logged (Log [Text "No IoT data available or no equipment mapping"]) w1)
        /\ getIoTStatus this w
           = (Val {[ "status" := VStr "offline";
                     "message" := VStr "IoT data unavailable";
                     "lastUpdate" := VStr "Never" ]}, w1)
        /\ exists w', refreshIoTData this w = (Val VNull, w')
             /\ console w'
                = (console w ++ [Log [Text "Manually refreshing IoT data..."];
                                 Err [Text "Error fetching IoT data:"; Thrown e]])%list).
Proof.
  split; [| split; [| split; [| split]]].
  - destruct (fetchIoTData_returns this w) as (data & entry & Hrun). eauto.
  - intros reason Hnet. apply fetchIoTData_failure. rewrite Hnet. reflexivity.
  - intros r Hnet Hok. apply fetchIoTData_failure. rewrite Hnet; cbn.
    rewrite Hok. reflexivity.
  - intros r e Hnet Hok Hjson. apply fetchIoTData_failure. rewrite Hnet; cbn.
    rewrite Hok, Hjson. reflexivity.
  - intros Hfails.
    destruct (retrieval_fails_caught _ Hfails) as [e Hc].
    pose proof (fetchIoTData_failure this w e Hc) as Hrun.
    exists e. cbv zeta. split; [exact Hc |]. split; [exact Hrun |].
    split; [eapply updateEquipmentWithIoTData_absent; [exact Hrun | reflexivity] |].
    split; [eapply getIoTStatus_absent; [exact Hrun | reflexivity] |].
    rewrite refreshIoTData_run. eexists. split.
    + apply fetchIoTData_failure. exact Hc.
    + cbn. rewrite <- app_assoc. reflexivity.
Qed.

(** C9.  On every retrieval outcome [refreshIoTData] returns what
    [fetchIoTData] returns. *)
Theorem refreshIoTData_is_fetchIoTData this w :
  fst (refreshIoTData this w) = fst (fetchIoTData this w).
Proof. rewrite refreshIoTData_run. apply fetchIoTData_logged. Qed.

(** C6.  When the fetch yields [null], [getIoTStatus] returns exactly the
    object with [status] offline, [message] "IoT data unavailable" and
    [lastUpdate] "Never": it has no [deviceId] and no [currentHours]. *)
Theorem getIoTStatus_unavailable this w w1 :
  fetchIoTData this w = (Val VNull, w1) ->
  exists report : gmap string value,
    getIoTStatus this w = (Val report, w1)
    /\ report = {[ "status" := VStr "offline";
                   "message" := VStr "IoT data unavailable";
                   "lastUpdate" := VStr "Never" ]}
    /\ dom report = {[ "status"; "message"; "lastUpdate" ]}
    /\ report !! "deviceId" = None
    /\ report !! "currentHours" = None.
Proof.
  intros Hfetch. eexists. split; [| split; [reflexivity |]].
  - eapply getIoTStatus_absent; [exact Hfetch | reflexivity].
  - split; [| split; reflexivity].
    rewrite !dom_insert_L, dom_singleton_L. set_solver.
Qed.

(** C3.  If the fetch yields [null], or a document with no
    [equipment_mapping], [updateEquipmentWithIoTData] returns the array it
    was given, without throwing, and no record in the heap has changed. *)
Theorem updateEquipmentWithIoTData_nothing_to_merge this w w1 iotData
    (equipmentData : list loc) :
  fetchIoTData this w = (Val iotData, w1) ->
  iotData = VNull
  \/ (exists doc : gmap string value, iotData = VObj doc /\ doc !! "equipment_mapping" = None) ->
  exists w',
    updateEquipmentWithIoTData this equipmentData w = (Val equipmentData, w')
    /\ heap w' = heap w.
Proof.
  intros Hfetch Hdoc.
  destruct (fetchIoTData_frame _ _ _ _ Hfetch) as [entry ->].
  destruct Hdoc as [-> | (doc & -> & Hnone)].
  - eexists. split.
    + eapply updateEquipmentWithIoTData_absent; [exact Hfetch | reflexivity].
    + reflexivity.
  - eexists. split.
    + unfold updateEquipmentWithIoTData, bind. rewrite Hfetch.
      unfold nothing_to_merge, bind; simpl. rewrite Hnone. simpl. reflexivity.
    + reflexivity.
Qed.

(** ** Freshness *)

Lemma getIoTStatus_present this w w1 iotData (lastUpdate : number) :
  fetchIoTData this w = (Val iotData, w1) ->
  truthy iotData = true ->
  new_Date (property iotData "last_updated") = Val lastUpdate ->
  exists report,
    getIoTStatus this w = (Val report, w1)
    /\ let minutesDiff := floor_div (minus (Some (now w)) lastUpdate) 60000 in
       report !! "status"
       = Some (VStr (if greater minutesDiff 1440 then "offline"
                     else if greater minutesDiff 60 then "stale" else "online"))
       /\ report !! "message"
         = Some (VStr (if greater minutesDiff 1440 then "IoT data very old (>24h)"
                       else if greater minutesDiff 60 then
                         "IoT data stale (" +:+ show_number (floor_div minutesDiff 60)
                         +:+ "h " +:+ show_number (remainder minutesDiff 60) +:+ "m ago)"
                       else "IoT data current (" +:+ show_number minutesDiff +:+ " min ago)"))
       /\ report !! "lastUpdate" = Some (VStr (toLocaleString lastUpdate))
       /\ report !! "deviceId" = Some (property iotData "device_id")
       /\ report !! "currentHours" = Some (property iotData "current_hours").
Proof.
  intros Hfetch Htruthy Hdate.
  destruct (fetchIoTData_frame _ _ _ _ Hfetch) as [entry ->].
  unfold getIoTStatus, bind. rewrite Hfetch, Htruthy. cbn [negb].
  rewrite !Get_defined by exact Htruthy.
  unfold ret, settle, Date_now. rewrite Hdate.
  change (now (logged entry w)) with (now w).
  change (1000 * 60) with 60000.
  set (minutesDiff := floor_div _ 60000).
  destruct (greater minutesDiff 60), (greater minutesDiff 1440);
    (eexists; split; [reflexivity |]);
    cbv zeta; repeat split; reflexivity.
Qed.

(** C2.  For a document whose [last_updated] parses to a time value, the
    status is decided by the whole minutes elapsed since then, floored: up to
    60, online, with the minutes in the message; above 60 and up to 1440,
    stale, with the hours (elapsed div 60) and minutes (elapsed mod 60) in the
    message; above 1440, offline with the fixed message.  A negative elapsed
    time takes the first branch like any other value up to 60. *)
Theorem getIoTStatus_classifies this w w1 iotData (t : Z) :
  fetchIoTData this w = (Val iotData, w1) ->
  truthy iotData = true ->
  new_Date (property iotData "last_updated") = Val (Some t) ->
  exists report : gmap string value,
    getIoTStatus this w = (Val report, w1)
    /\ let elapsed := elapsed_minutes (now w) t in
       (elapsed <= 60 ->
          report !! "status" = Some (VStr "online")
          /\ report !! "message"
            = Some (VStr ("IoT data current (" +:+ show_Z elapsed +:+ " min ago)")))
       /\ (60 < elapsed <= 1440 ->
           report !! "status" = Some (VStr "stale")
           /\ report !! "message"
             = Some (VStr ("IoT data stale (" +:+ show_Z (elapsed / 60) +:+ "h "
                           +:+ show_Z (elapsed mod 60) +:+ "m ago)")))
       /\ (1440 < elapsed ->
           report !! "status" = Some (VStr "offline")
           /\ report !! "message" = Some (VStr "IoT data very old (>24h)")).
Proof.
  intros Hfetch Htruthy Hdate.
  destruct (getIoTStatus_present _ _ _ _ _ Hfetch Htruthy Hdate)
    as (report & Hrun & Hstatus & Hmessage & _).
  exists report. split; [exact Hrun |].
  simpl in Hstatus, Hmessage.
  fold (elapsed_minutes (now w) t) in Hstatus, Hmessage.
  cbv zeta. set (elapsed := elapsed_minutes (now w) t) in *.
  rewrite Hstatus, Hmessage.
  split; [| split]; intros Hrange; split.
  - destruct (Z.ltb_spec 1440 elapsed); [lia |].
    destruct (Z.ltb_spec 60 elapsed); [lia | reflexivity].
  - destruct (Z.ltb_spec 1440 elapsed); [lia |].
    destruct (Z.ltb_spec 60 elapsed); [lia | reflexivity].
  - destruct (Z.ltb_spec 1440 elapsed); [lia |].
    destruct (Z.ltb_spec 60 elapsed); [reflexivity | lia].
  - destruct (Z.ltb_spec 1440 elapsed); [lia |].
    destruct (Z.ltb_spec 60 elapsed); [| lia].
    rewrite Z.rem_mod_nonneg by lia. reflexivity.
  - destruct (Z.ltb_spec 1440 elapsed); [reflexivity | lia].
  - destruct (Z.ltb_spec 1440 elapsed); [reflexivity | lia].
Qed.

(** C10.  For a document whose [last_updated] is missing, or does not parse
    to a time value, the elapsed minutes are NaN, both comparisons fail, and
    [getIoTStatus] reports online with NaN in the message. *)
Theorem getIoTStatus_unparseable this w w1 (doc : gmap string value) :
  fetchIoTData this w = (Val (VObj doc), w1) ->
  doc !! "last_updated" = None
  \/ new_Date (property (VObj doc) "last_updated") = Val None ->
  exists report : gmap string value,
    getIoTStatus this w = (Val report, w1)
    /\ report !! "status" = Some (VStr "online")
    /\ report !! "message" = Some (VStr "IoT data current (NaN min ago)")
    /\ report !! "lastUpdate" = Some (VStr "Invalid Date").
Proof.
  intros Hfetch Hdate.
  assert (new_Date (property (VObj doc) "last_updated") = Val None) as Hnan.
  { destruct Hdate as [Hmissing | Hnan]; [| exact Hnan].
    simpl. rewrite Hmissing. reflexivity. }
  destruct (getIoTStatus_present _ _ _ _ _ Hfetch eq_refl Hnan)
    as (report & Hrun & Hstatus & Hmessage & Hlast & _).
  exists report. repeat split; assumption.
Qed.

(** ** Merging *)

Lemma merged_equipmentNumber iotData (r : EquipmentRecord) :
  equipmentNumber (merged iotData r) = equipmentNumber r.
Proof. reflexivity. Qed.

Lemma receives_reading_merged iotData (r : EquipmentRecord) :
  receives_reading iotData (merged iotData r) = receives_reading iotData r.
Proof. reflexivity. Qed.

Lemma merged_idempotent iotData (r : EquipmentRecord) :
  merged iotData (merged iotData r) = merged iotData r.
Proof. reflexivity. Qed.

Lemma accepts_merged iotData (r : EquipmentRecord) : accepts (merged iotData r) = true.
Proof. reflexivity. Qed.

(** A record that accepts the two assignments comes out of them merged. *)
Lemma assignments_accepted iotData (r : EquipmentRecord) :
  accepts r = true ->
  exists r1,
    set_currentHours (property iotData "current_hours") r = inr r1
    /\ set_lastIoTUpdate (property iotData "last_updated") r1 = inr (merged iotData r).
Proof.
  unfold accepts, set_currentHours, set_lastIoTUpdate, merged, assign.
  destruct r as [number hours updated ext others]; cbn.
  destruct hours as [| v [|]], updated as [| v' [|]], ext; cbn;
    intros Haccepts; try discriminate; eexists; split; reflexivity.
Qed.

(** One round of the [forEach]: a record that receives the reading is
    replaced in the heap by the merged one and a line is logged; nothing
    happens otherwise. *)
Lemma update_one_run iotData (hours : string) (l : loc) w (r : EquipmentRecord) :
  truthy iotData = true ->
  truthy (property iotData "equipment_mapping") = true ->
  ToString (property iotData "current_hours") = Val hours ->
  heap w !! l = Some r ->
  (receives_reading iotData r = true -> accepts r = true) ->
  update_one iotData l w
  = (Val tt,
     if receives_reading iotData r then
       logged (update_line hours r) (with_heap (<[l := merged iotData r]> (heap w)) w)
     else w).
Proof.
  intros Hdata Hmapping Hhours Hheap Haccepts.
  unfold update_one, bind.
  rewrite Get_defined by exact Hdata. unfold ret at 1.
  unfold read_equipmentNumber at 1. rewrite Hheap.
  rewrite Get_defined by exact Hmapping. unfold ret at 1.
  unfold same_device, receives_reading in *.
  destruct (truthy (property (property iotData "equipment_mapping") (equipmentNumber r)));
    [| reflexivity].
  rewrite Get_defined by exact Hdata. unfold bind, ret at 1. unfold ret at 1.
  destruct (strict_equal _ _); [| reflexivity].
  cbn [when andb] in *.
  destruct (assignments_accepted iotData r (Haccepts eq_refl)) as (r1 & Hfirst & Hsecond).
  rewrite !Get_defined by exact Hdata.
  unfold bind, ret, settle, write_field, read_equipmentNumber, console_log, logged,
    update_line.
  rewrite Hheap, Hfirst. cbn [heap with_heap].
  rewrite lookup_insert_eq, Hsecond. cbn [heap with_heap].
  rewrite lookup_insert_eq, insert_insert_eq, Hhours.
  reflexivity.
Qed.

Lemma update_lines_insert_merged (hours : string) iotData (h : gmap loc EquipmentRecord)
    (x : loc) (rx : EquipmentRecord) (ls : list loc) :
  h !! x = Some rx ->
  update_lines hours iotData (<[x := merged iotData rx]> h) ls
  = update_lines hours iotData h ls.
Proof.
  intros Hx. unfold update_lines.
  induction ls as [| l ls IH]; [reflexivity |].
  cbn [flat_map]. rewrite IH. f_equal.
  destruct (decide (l = x)) as [-> | Hne].
  - rewrite lookup_insert_eq, Hx. reflexivity.
  - rewrite lookup_insert_ne by congruence. reflexivity.
Qed.

(** The world after the [forEach]: the lines written and the heap, record by
    record; nothing else has changed. *)
Lemma forEach_update_one_world iotData (hours : string) (ls : list loc) :
  truthy iotData = true ->
  truthy (property iotData "equipment_mapping") = true ->
  ToString (property iotData "current_hours") = Val hours ->
  forall w,
    mergeable_records iotData (heap w) ls ->
    exists h',
      forEach ls (update_one iotData) w
      = (Val tt,
         with_console (console w ++ update_lines hours iotData (heap w) ls)
           (with_heap h' w))
      /\ forall l,
           h' !! l
           = (fun r => if bool_decide (l ∈ ls) && receives_reading iotData r
                       then merged iotData r else r) <$> heap w !! l.
Proof.
  intros Hdata Hmapping Hhours.
  induction ls as [| x rest IH]; intros w Hlive.
  - exists (heap w). split.
    + destruct w. cbn. rewrite app_nil_r. reflexivity.
    + intros l. destruct (heap w !! l); reflexivity.
  - destruct (Hlive x) as (rx & Hx & Haccepts); [left |].
    cbn [forEach]. unfold bind at 1.
    rewrite (update_one_run iotData hours x w rx Hdata Hmapping Hhours Hx Haccepts).
    unfold update_lines at 1. cbn [flat_map]. rewrite Hx.
    fold (update_lines hours iotData (heap w) rest).
    destruct (receives_reading iotData rx) eqn:Hrx.
    + destruct (IH (logged (update_line hours rx)
                      (with_heap (<[x := merged iotData rx]> (heap w)) w)))
        as (h' & Hrun & Hheap).
      { intros l Hl. cbn [logged with_console with_heap heap].
        destruct (decide (l = x)) as [-> | Hne].
        - rewrite lookup_insert_eq. eexists. split; [reflexivity |].
          intros _. apply accepts_merged.
        - rewrite lookup_insert_ne by congruence. apply Hlive. right. exact Hl. }
      exists h'. split.
      * rewrite Hrun.
        cbn [logged with_console with_heap heap console network now timers
             next_handle calls].
        rewrite (update_lines_insert_merged hours iotData (heap w) x rx rest Hx).
        unfold with_console, with_heap; cbn. rewrite <- app_assoc. reflexivity.
      * intros l. rewrite Hheap. cbn [logged with_console with_heap heap].
        destruct (decide (l = x)) as [-> | Hne].
        -- rewrite lookup_insert_eq, Hx. cbn [fmap option_fmap option_map].
           rewrite receives_reading_merged, Hrx, merged_idempotent.
           rewrite (bool_decide_eq_true_2 (x ∈ x :: rest)) by left.
           destruct (bool_decide (x ∈ rest)); reflexivity.
        -- rewrite lookup_insert_ne by congruence.
           replace (bool_decide (l ∈ x :: rest)) with (bool_decide (l ∈ rest));
             [reflexivity |].
           apply bool_decide_ext. rewrite elem_of_cons. tauto.
    + destruct (IH w) as (h' & Hrun & Hheap).
      { intros l Hl. apply Hlive. right. exact Hl. }
      exists h'. split; [exact Hrun |].
      intros l. rewrite Hheap.
      destruct (decide (l = x)) as [-> | Hne].
      * rewrite Hx. cbn [fmap option_fmap option_map]. rewrite Hrx, !andb_false_r.
        reflexivity.
      * replace (bool_decide (l ∈ x :: rest)) with (bool_decide (l ∈ rest));
          [reflexivity |].
        apply bool_decide_ext. rewrite elem_of_cons. tauto.
Qed.

(** C1, as amended.  Take a fetched document with a truthy
    [equipment_mapping] whose [current_hours] converts to a string (as every
    number does), and an array whose elements are all records, those that
    receive the reading accepting the two assignments (as every record that
    is not frozen or otherwise closed to them does).  Then the array is
    returned as it came, and a record of the array ends with [currentHours]
    and [lastIoTUpdate] set to the document's [current_hours] and
    [last_updated] exactly when the value its [equipmentNumber] selects in
    the mapping is truthy and strictly equal to the document's [device_id];
    every other record, in the array or not, is left as it was. *)
Theorem updateEquipmentWithIoTData_merges this w w1 iotData (hours : string)
    (equipmentData : list loc) :
  fetchIoTData this w = (Val iotData, w1) ->
  truthy iotData = true ->
  truthy (property iotData "equipment_mapping") = true ->
  ToString (property iotData "current_hours") = Val hours ->
  (forall l, l ∈ equipmentData ->
     exists r, heap w !! l = Some r
       /\ (receives_reading iotData r = true -> accepts r = true)) ->
  exists w',
    updateEquipmentWithIoTData this equipmentData w = (Val equipmentData, w')
    /\ forall l r, heap w !! l = Some r ->
         (l ∈ equipmentData -> receives_reading iotData r = true ->
            heap w' !! l
            = Some {| equipmentNumber := equipmentNumber r;
                      currentHours := Data (property iotData "current_hours") true;
                      lastIoTUpdate := Data (property iotData "last_updated") true;
                      extensible := extensible r;
                      other_fields := other_fields r |})
         /\ (l ∉ equipmentData \/ receives_reading iotData r = false ->
             heap w' !! l = Some r).
Proof.
  intros Hfetch Hdata Hmapping Hhours Hlive.
  destruct (fetchIoTData_frame _ _ _ _ Hfetch) as [entry ->].
  destruct (forEach_update_one_world iotData hours equipmentData Hdata Hmapping Hhours
              (logged entry w) Hlive)
    as (h' & Hrun & Hheap).
  eexists. split.
  - unfold updateEquipmentWithIoTData, bind. rewrite Hfetch.
    unfold nothing_to_merge. rewrite Hdata. cbn [negb].
    rewrite Get_defined by exact Hdata. unfold bind, ret at 1. unfold ret at 1.
    rewrite Hmapping. cbn [negb]. rewrite Hrun. reflexivity.
  - intros l r Hl. cbn [with_console with_heap heap].
    rewrite Hheap. cbn [logged with_console heap]. rewrite Hl.
    cbn [fmap option_fmap option_map]. split.
    + intros Hin Hr. rewrite Hr, bool_decide_eq_true_2 by exact Hin. reflexivity.
    + intros [Hout | Hr].
      * rewrite bool_decide_eq_false_2 by exact Hout. reflexivity.
      * rewrite Hr, andb_false_r. reflexivity.
Qed.

(** C5, as amended.  For a response that is [ok], [fetchIoTData] returns
    whatever value the body parses to, with whatever fields it has, and
    [null] when the body does not parse; it checks no field. *)
Theorem fetchIoTData_returns_body this w (r : Response) :
  network w (iotDataFile this) = Resolves r ->
  ok r = true ->
  exists w',
    fetchIoTData this w
    = (Val match json r with
           | Val data => data
           | Exn _ => VNull
           end, w').
Proof.
  intros Hnet Hok.
  destruct (json r) as [data | e] eqn:Hjson.
  - eexists. eapply fetchIoTData_success; eassumption.
  - eexists. apply fetchIoTData_failure.
    rewrite Hnet; simpl. rewrite Hok, Hjson. reflexivity.
Qed.

(** ** Polling *)

Lemma fire_handle (t_now : Z) (t : timer) : handle (fst (fire t_now t)) = handle t.
Proof. unfold fire. destruct (due t <=? t_now); reflexivity. Qed.

Lemma fire_fired_by (t_now : Z) (t : timer) (i : invocation) :
  i ∈ snd (fire t_now t) -> fired_by i = handle t.
Proof.
  unfold fire. destruct (due t <=? t_now); cbn [snd].
  - destruct (timer_callback t); [| intros Hin; inversion Hin].
    intros Hin. apply list_elem_of_singleton in Hin. subst i. reflexivity.
  - intros Hin. inversion Hin.
Qed.

Lemma filter_fired_by_none (h : positive) (l : list invocation) :
  (forall i, i ∈ l -> fired_by i <> h) ->
  filter (fun i => fired_by i = h) l = [].
Proof.
  induction l as [| i l IH]; intros Hnone; [reflexivity |].
  rewrite filter_cons_False by (apply Hnone; left).
  apply IH. intros j Hj. apply Hnone. right. exact Hj.
Qed.

Lemma filter_fired_others (h : positive) (t_now : Z) (ts : list timer) :
  (forall t, t ∈ ts -> handle t <> h) ->
  filter (fun i => fired_by i = h) (concat (map snd (map (fire t_now) ts))) = [].
Proof.
  induction ts as [| t ts IH]; intros Hother; [reflexivity |].
  cbn [map concat]. rewrite filter_app, IH.
  - rewrite app_nil_r. apply filter_fired_by_none.
    intros i Hi. rewrite (fire_fired_by _ _ _ Hi). apply Hother. left.
  - intros t' Hin. apply Hother. right. exact Hin.
Qed.

(** A timer that is not in the table makes no call, however long one waits. *)
Lemma tick_no_timer (h : positive) w :
  no_timer h w -> no_timer h (tick w) /\ calls_of h (tick w) = calls_of h w.
Proof.
  intros Hnone. split.
  - intros t Hin. cbn [tick timers] in Hin.
    rewrite map_map in Hin. apply list_elem_of_fmap in Hin as (t0 & -> & Hin0).
    rewrite fire_handle. apply Hnone, Hin0.
  - unfold calls_of. cbn [tick calls].
    rewrite filter_app, filter_fired_others by exact Hnone.
    apply app_nil_r.
Qed.

Lemma elapse_no_timer (h : positive) (ms : nat) w :
  no_timer h w -> no_timer h (elapse ms w) /\ calls_of h (elapse ms w) = calls_of h w.
Proof.
  intros Hnone. induction ms as [| ms [IHnone IHcalls]]; [split; [exact Hnone | reflexivity] |].
  change (elapse (S ms) w) with (tick (elapse ms w)).
  destruct (tick_no_timer h _ IHnone) as [Hnone' Hcalls'].
  split; [exact Hnone' | congruence].
Qed.

Lemma div_succ_multiple (n d : Z) :
  0 <= n -> 0 < d -> (n / d + 1) * d <= n + 1 ->
  (n + 1) / d = n / d + 1 /\ n + 1 = (n / d + 1) * d.
Proof.
  intros Hn Hd Hle.
  pose proof (Z.div_mod n d ltac:(lia)) as Hdm.
  pose proof (Z.mod_pos_bound n d Hd) as Hmod.
  assert (n + 1 = (n / d + 1) * d) as Heq by lia.
  split; [| exact Heq].
  rewrite Heq at 1. apply Z.div_mul. lia.
Qed.

Lemma div_succ_same (n d : Z) :
  0 <= n -> 0 < d -> n + 1 < (n / d + 1) * d -> (n + 1) / d = n / d.
Proof.
  intros Hn Hd Hlt.
  pose proof (Z.div_mod n d ltac:(lia)) as Hdm.
  pose proof (Z.mod_pos_bound n d Hd) as Hmod.
  symmetry. apply (Z.div_unique (n + 1) d (n / d) (n mod d + 1)); lia.
Qed.

Lemma polling_tick (h : positive) (f : string) (d t0 : Z) (base : list invocation)
    (ms : nat) w :
  0 < d -> polling h f d t0 base ms w -> polling h f d t0 base (S ms) (tick w).
Proof.
  intros Hd (ts & Htimers & Hothers & Hnow & Hcalls).
  exists (map fst (map (fire (now w + 1)) ts)).
  assert (forall t, t ∈ map fst (map (fire (now w + 1)) ts) -> handle t <> h) as Hothers'.
  { intros t Hin. apply list_elem_of_fmap in Hin as (p & -> & Hin).
    apply list_elem_of_fmap in Hin as (t1 & -> & Hin).
    rewrite fire_handle. apply Hothers, Hin. }
  assert (0 <= Z.of_nat ms) as Hms by lia.
  rewrite Nat2Z.inj_succ. unfold Z.succ.
  unfold calls_of. cbn [tick timers now calls].
  rewrite Htimers, !map_app, concat_app, !filter_app.
  rewrite filter_fired_others by exact Hothers.
  fold (calls_of h w). rewrite Hcalls.
  split; [| split; [exact Hothers' | split; [lia |]]].
  - f_equal. rewrite Hnow. cbn [map fst]. unfold fire; cbn [due delay handle timer_callback].
    destruct (Z.leb_spec (t0 + (Z.of_nat ms / d + 1) * d) (t0 + Z.of_nat ms + 1))
      as [Hdue | Hlater]; cbn [fst].
    + destruct (div_succ_multiple (Z.of_nat ms) d Hms Hd ltac:(lia)) as [Hq Heq].
      rewrite Hq. do 2 f_equal. lia.
    + rewrite (div_succ_same (Z.of_nat ms) d Hms Hd ltac:(lia)). reflexivity.
  - rewrite Hnow. cbn [map concat snd app]. rewrite !app_nil_r.
    unfold fire; cbn [due delay handle timer_callback].
    destruct (Z.leb_spec (t0 + (Z.of_nat ms / d + 1) * d) (t0 + Z.of_nat ms + 1))
      as [Hdue | Hlater]; cbn [snd].
    + destruct (div_succ_multiple (Z.of_nat ms) d Hms Hd ltac:(lia)) as [Hq Heq].
      rewrite filter_cons_True by reflexivity.
      rewrite filter_nil. cbn [app]. rewrite <- app_assoc. f_equal.
      unfold expected_calls. rewrite Nat2Z.inj_succ. unfold Z.succ. rewrite Hq.
      rewrite Z2Nat.inj_add by (try apply Z.div_pos; lia).
      change (Z.to_nat 1) with 1%nat. rewrite Nat.add_1_r, seq_S, map_app.
      cbn [map]. do 3 f_equal.
      rewrite Nat2Z.inj_add, Z2Nat.id by (apply Z.div_pos; lia).
      change (Z.of_nat 1) with 1. lia.
    + rewrite filter_nil, !app_nil_r.
      unfold expected_calls. rewrite Nat2Z.inj_succ. unfold Z.succ.
      rewrite (div_succ_same (Z.of_nat ms) d Hms Hd ltac:(lia)). reflexivity.
Qed.

Lemma polling_elapse (h : positive) (f : string) (d t0 : Z) (base : list invocation)
    (ms : nat) w :
  0 < d -> polling h f d t0 base 0 w -> polling h f d t0 base ms (elapse ms w).
Proof.
  intros Hd Hstart. induction ms as [| ms IH]; [exact Hstart |].
  change (elapse (S ms) w) with (tick (elapse ms w)).
  apply polling_tick; assumption.
Qed.

Lemma startAutoUpdate_enabled this (cb : callback) w :
  autoUpdateEnabled this = true ->
  startAutoUpdate this cb w
  = (Val this, logged (Log [Text "Auto-update already enabled"]) w).
Proof. intros Hon. unfold startAutoUpdate. rewrite Hon. reflexivity. Qed.

Lemma startAutoUpdate_disabled this (cb : callback) w :
  autoUpdateEnabled this = false ->
  startAutoUpdate this cb w
  = (Val {| iotDataFile := iotDataFile this;
            updateInterval := updateInterval this;
            autoUpdateEnabled := true;
            updateTimer := SlotHandle (next_handle w) |},
     with_timers
       (timers w ++ [ {| handle := next_handle w; timer_callback := cb;
                         delay := timer_delay (updateInterval this);
                         due := now w + timer_delay (updateInterval this) |} ])
       (Pos.succ (next_handle w))
       (logged (Log [Text "Starting IoT auto-update..."]) w)).
Proof. intros Hoff. unfold startAutoUpdate. rewrite Hoff. reflexivity. Qed.

Lemma timer_delay_usual (d : Z) : 4 <= d <= 2147483647 -> timer_delay d = d.
Proof.
  intros [Hlow Hhigh]. unfold timer_delay.
  destruct (Z.leb_spec 4 d); [| lia].
  destruct (Z.leb_spec d 2147483647); [reflexivity | lia].
Qed.

Lemma stopAutoUpdate_handle this (h : positive) w :
  updateTimer this = SlotHandle h ->
  stopAutoUpdate this w
  = (Val {| iotDataFile := iotDataFile this;
            updateInterval := updateInterval this;
            autoUpdateEnabled := false;
            updateTimer := SlotNull |},
     logged (Log [Text "IoT auto-update stopped"])
       (with_timers (filter (fun t => handle t <> h) (timers w)) (next_handle w) w)).
Proof. intros Hslot. unfold stopAutoUpdate. rewrite Hslot. reflexivity. Qed.

Lemma expected_calls_before (h : positive) (f : string) (t0 d : Z) (ms : nat) :
  Z.of_nat ms < d -> expected_calls h f t0 d ms = [].
Proof.
  intros Hlt. unfold expected_calls.
  rewrite Z.div_small by lia. reflexivity.
Qed.

Lemma expected_calls_first (h : positive) (f : string) (t0 d : Z) :
  0 < d ->
  expected_calls h f t0 d (Z.to_nat d)
  = [ {| fired_by := h; fired_function := f; fired_at := t0 + d |} ].
Proof.
  intros Hd. unfold expected_calls.
  rewrite Z2Nat.id, Z.div_same by lia.
  change (Z.to_nat 1) with 1%nat. cbn [seq map].
  change (Z.of_nat 1) with 1. rewrite Z.mul_1_l. reflexivity.
Qed.

(** C7.  Called on an instance that is already enabled, [startAutoUpdate]
    writes a line to the console and changes nothing else.  Called on one that
    is not, it sets the flag and adds one timer to the table, with the
    callback and the delay the host gives for [updateInterval]; it runs
    nothing itself; a second call right after adds no timer, so the table is
    one timer longer than before the first.  For an [updateInterval] from 4
    to 2147483647 ms, which every host runs as asked, the period of the timer
    is [updateInterval], its first run is due one period from now, and as
    time passes the callback runs at each whole multiple of the period and at
    no other time: not before one period has gone by, once when it has.  The
    period of a new instance is 30000 ms. *)
Theorem startAutoUpdate_idempotent this (cb : callback) w :
  (autoUpdateEnabled this = true ->
     startAutoUpdate this cb w
     = (Val this, logged (Log [Text "Auto-update already enabled"]) w))
  /\ (autoUpdateEnabled this = false ->
      exists this' w',
        let h := next_handle w in
        startAutoUpdate this cb w = (Val this', w')
        /\ autoUpdateEnabled this' = true
        /\ updateTimer this' = SlotHandle h
        /\ timers w'
          = (timers w ++ [ {| handle := h; timer_callback := cb;
                              delay := timer_delay (updateInterval this);
                              due := now w + timer_delay (updateInterval this) |} ])%list
        /\ calls w' = calls w
        /\ (forall cb' : callback, exists w'',
              startAutoUpdate this' cb' w' = (Val this', w'')
              /\ timers w'' = timers w'
              /\ length (timers w'') = S (length (timers w)))
        /\ (4 <= updateInterval this <= 2147483647 ->
            timers w'
            = (timers w ++ [ {| handle := h; timer_callback := cb;
                                delay := updateInterval this;
                                due := now w + updateInterval this |} ])%list
            /\ forall f : string,
                 cb = Function f -> no_timer h w ->
                 (forall ms : nat,
                    calls_of h (elapse ms w')
                    = (calls_of h w
                       ++ expected_calls h f (now w) (updateInterval this) ms)%list)
                 /\ (forall ms : nat,
                       Z.of_nat ms < updateInterval this ->
                       calls_of h (elapse ms w') = calls_of h w)
                 /\ calls_of h (elapse (Z.to_nat (updateInterval this)) w')
                   = (calls_of h w
                      ++ [ {| fired_by := h; fired_function := f;
                              fired_at := now w + updateInterval this |} ])%list))
  /\ updateInterval constructor = 30000
  /\ 4 <= updateInterval constructor <= 2147483647.
Proof.
  split; [apply startAutoUpdate_enabled | split; [| split; [reflexivity | cbn; lia]]].
  intros Hoff. eexists _, _. cbv zeta.
  split; [apply startAutoUpdate_disabled, Hoff |].
  do 4 (split; [reflexivity |]).
  split.
  - intros cb'. eexists. split; [apply startAutoUpdate_enabled; reflexivity |].
    split; [reflexivity |].
    cbn [logged with_console with_timers timers]. rewrite length_app. cbn. lia.
  - intros Hrange. rewrite (timer_delay_usual _ Hrange).
    split; [reflexivity |].
    intros f -> Hfresh.
    assert (0 < updateInterval this) as Hd by lia.
    set (w' := with_timers _ _ _).
    assert (forall ms : nat,
              calls_of (next_handle w) (elapse ms w')
              = (calls_of (next_handle w) w
                 ++ expected_calls (next_handle w) f (now w) (updateInterval this) ms)%list)
      as Hcalls.
    { intros ms.
      destruct (polling_elapse (next_handle w) f (updateInterval this) (now w)
                  (calls_of (next_handle w) w) ms w' Hd) as (ts & _ & _ & _ & Hcalls).
      - exists (timers w). repeat split.
        + subst w'. cbn [with_timers timers logged with_console].
          rewrite Z.div_0_l, Z.mul_1_l by lia. reflexivity.
        + exact Hfresh.
        + cbn. lia.
        + unfold expected_calls. rewrite Z.div_0_l by lia. cbn [Z.to_nat seq map].
          rewrite app_nil_r. reflexivity.
      - exact Hcalls. }
    split; [exact Hcalls | split].
    + intros ms Hms. rewrite Hcalls, expected_calls_before by exact Hms.
      apply app_nil_r.
    + rewrite Hcalls, expected_calls_first by exact Hd. reflexivity.
Qed.

(** C8.  With a handle in [updateTimer], [stopAutoUpdate] removes that timer
    from the table, sets [updateTimer] to [null] and the flag to false, and
    from then on the callback is never run through that timer again.  With no
    handle there, as on an instance that was never started, it returns without
    throwing and changes nothing. *)
Theorem stopAutoUpdate_cancels this w :
  (forall h : positive,
     updateTimer this = SlotHandle h ->
     exists this' w',
       stopAutoUpdate this w = (Val this', w')
       /\ updateTimer this' = SlotNull
       /\ autoUpdateEnabled this' = false
       /\ timers w' = filter (fun t => handle t <> h) (timers w)
       /\ no_timer h w'
       /\ forall ms : nat, calls_of h (elapse ms w') = calls_of h w)
  /\ (slot_truthy (updateTimer this) = false -> stopAutoUpdate this w = (Val this, w))
  /\ stopAutoUpdate constructor w = (Val constructor, w).
Proof.
  split; [| split; [| reflexivity]].
  - intros h Hslot. eexists _, _.
    split; [apply stopAutoUpdate_handle, Hslot |].
    do 3 (split; [reflexivity |]).
    assert (no_timer h
              (logged (Log [Text "IoT auto-update stopped"])
                 (with_timers (filter (fun t => handle t <> h) (timers w))
                    (next_handle w) w))) as Hnone.
    { intros t Hin. cbn [logged with_console with_timers timers] in Hin.
      apply list_elem_of_filter in Hin as [Hne _]. exact Hne. }
    split; [exact Hnone |].
    intros ms. destruct (elapse_no_timer h ms _ Hnone) as [_ ->]. reflexivity.
  - unfold stopAutoUpdate. destruct (updateTimer this); [reflexivity .. | discriminate].
Qed.

End Properties.

(** * Further properties *)

Section Further.

Context `{Host}.

Implicit Types (this : IoTIntegration) (w : world) (iotData : value).

(** ** The merge as a whole *)

(** [updateEquipmentWithIoTData] on records that take the merge, whatever
    was fetched. *)
Lemma updateEquipmentWithIoTData_run this w w1 iotData (hours : string)
    (equipmentData : list loc) :
  fetchIoTData this w = (Val iotData, w1) ->
  ToString (property iotData "current_hours") = Val hours ->
  mergeable_records iotData (heap w) equipmentData ->
  exists h',
    updateEquipmentWithIoTData this equipmentData w
    = (Val equipmentData,
       with_console
         (console w1
          ++ if mergeable iotData
             then update_lines hours iotData (heap w) equipmentData
             else [Log [Text "No IoT data available or no equipment mapping"]])
         (with_heap h' w1))
    /\ forall l, h' !! l = after_merge iotData equipmentData l <$> heap w !! l.
Proof.
  intros Hfetch Hhours Hlive.
  destruct (fetchIoTData_frame _ _ _ _ Hfetch) as [entry ->].
  unfold updateEquipmentWithIoTData, bind. rewrite Hfetch.
  unfold nothing_to_merge, after_merge, mergeable.
  destruct (truthy iotData) eqn:Hdata; cbn [negb andb].
  - rewrite Get_defined by exact Hdata. unfold bind, ret at 1. unfold ret at 1.
    destruct (truthy (property iotData "equipment_mapping")) eqn:Hmapping; cbn [negb].
    + destruct (forEach_update_one_world iotData hours equipmentData Hdata Hmapping Hhours
                  (logged entry w) Hlive) as (h' & Hrun & Hheap).
      rewrite Hrun. exists h'. split.
      * unfold ret. cbn. reflexivity.
      * intros l. rewrite Hheap. reflexivity.
    + exists (heap w). split; [reflexivity |].
      intros l. destruct (heap w !! l); reflexivity.
  - exists (heap w). split; [reflexivity |].
    intros l. destruct (heap w !! l); reflexivity.
Qed.

Lemma fetchIoTData_same_network this w w' :
  network w' (iotDataFile this) = network w (iotDataFile this) ->
  fst (fetchIoTData this w') = fst (fetchIoTData this w).
Proof.
  intros Hnet.
  destruct (caught (network w (iotDataFile this))) as [e |] eqn:Hc.
  - rewrite (fetchIoTData_failure this w e Hc).
    rewrite <- Hnet in Hc. rewrite (fetchIoTData_failure this w' e Hc). reflexivity.
  - unfold caught in Hc.
    destruct (network w (iotDataFile this)) as [reason | r] eqn:Hw; [discriminate |].
    destruct (ok r) eqn:Hok; [| discriminate].
    destruct (json r) as [data | e] eqn:Hjson; [| discriminate].
    rewrite (fetchIoTData_success this w r data Hw Hok Hjson).
    rewrite (fetchIoTData_success this w' r data Hnet Hok Hjson).
    reflexivity.
Qed.

Lemma after_merge_idempotent iotData (equipmentData : list loc) (l : loc)
    (r : EquipmentRecord) :
  after_merge iotData equipmentData l (after_merge iotData equipmentData l r)
  = after_merge iotData equipmentData l r.
Proof.
  unfold after_merge.
  destruct (mergeable iotData && bool_decide (l ∈ equipmentData)); cbn [andb];
    [| reflexivity].
  destruct (receives_reading iotData r) eqn:Hr.
  - rewrite receives_reading_merged, Hr. apply merged_idempotent.
  - rewrite Hr. reflexivity.
Qed.

(** *** What every merge keeps *)

Lemma kept_record_refl (touched : bool) (o : option EquipmentRecord) :
  kept_record touched o o.
Proof. destruct o; cbn; auto. Qed.

Lemma kept_record_trans (touched : bool) (o1 o2 o3 : option EquipmentRecord) :
  kept_record touched o1 o2 -> kept_record touched o2 o3 -> kept_record touched o1 o3.
Proof.
  destruct o1, o2, o3; cbn; try tauto.
  intros (Hn & Ho & He & Hu) (Hn' & Ho' & He' & Hu').
  repeat split; try congruence.
  intros Hnot. rewrite (Hu' Hnot). apply Hu, Hnot.
Qed.

Lemma keeps_refl (ed : list loc) w : keeps ed w w.
Proof. repeat split. intros l. apply kept_record_refl. Qed.

Lemma keeps_trans (ed : list loc) w1 w2 w3 :
  keeps ed w1 w2 -> keeps ed w2 w3 -> keeps ed w1 w3.
Proof.
  intros (Hn & Ht & Hti & Hh & Hc & Hr) (Hn' & Ht' & Hti' & Hh' & Hc' & Hr').
  repeat split; try congruence.
  intros l. eapply kept_record_trans; [apply Hr | apply Hr'].
Qed.

Lemma keeping_bind {A B : Type} (ed : list loc) (m : M A) (k : A -> M B) :
  keeping ed m -> (forall a, keeping ed (k a)) -> keeping ed (bind m k).
Proof.
  intros Hm Hk w. unfold bind. specialize (Hm w).
  destruct (m w) as [[a | e] w1]; cbn [snd] in *; [| exact Hm].
  eapply keeps_trans; [exact Hm | apply Hk].
Qed.

Lemma keeping_ret {A : Type} (ed : list loc) (a : A) : keeping ed (ret a).
Proof. intros w. apply keeps_refl. Qed.

Lemma keeping_settle {A : Type} (ed : list loc) (o : outcome A) : keeping ed (settle o).
Proof. intros w. apply keeps_refl. Qed.

Lemma keeping_Get (ed : list loc) (o : value) (k : string) : keeping ed (Get o k).
Proof. intros w. destruct o; apply keeps_refl. Qed.

Lemma keeping_console_log (ed : list loc) (args : list console_arg) :
  keeping ed (console_log args).
Proof. intros w. repeat split. intros l. apply kept_record_refl. Qed.

Lemma keeping_read_equipmentNumber (ed : list loc) (l : loc) :
  keeping ed (read_equipmentNumber l).
Proof.
  intros w. unfold read_equipmentNumber. destruct (heap w !! l); apply keeps_refl.
Qed.

Lemma assignment_keeps (v : value) (r r' : EquipmentRecord) :
  set_currentHours v r = inr r' \/ set_lastIoTUpdate v r = inr r' ->
  equipmentNumber r' = equipmentNumber r
  /\ other_fields r' = other_fields r
  /\ extensible r' = extensible r.
Proof.
  unfold set_currentHours, set_lastIoTUpdate.
  intros [Hset | Hset];
    destruct (assign _ _ _ _); inversion Hset; subst; repeat split.
Qed.

Lemma keeping_write_field (ed : list loc) (key : string) (v : value) (l : loc)
    (set : EquipmentRecord -> type_error + EquipmentRecord) :
  l ∈ ed ->
  set = set_currentHours v \/ set = set_lastIoTUpdate v ->
  keeping ed (write_field key set l).
Proof.
  intros Hin Hset w. unfold write_field.
  destruct (heap w !! l) as [r |] eqn:Hl; [| apply keeps_refl].
  destruct (set r) as [e | r'] eqn:Hr; [apply keeps_refl |].
  repeat split. intros l'. cbn [snd with_heap heap].
  destruct (decide (l' = l)) as [-> | Hne].
  - rewrite lookup_insert_eq, Hl. cbn.
    destruct (assignment_keeps v r r') as (Hn & Ho & He).
    { destruct Hset as [-> | ->]; [left | right]; exact Hr. }
    repeat split; try assumption.
    rewrite bool_decide_eq_true_2 by exact Hin. discriminate.
  - rewrite lookup_insert_ne by congruence. apply kept_record_refl.
Qed.

Lemma keeping_update_one (ed : list loc) iotData (l : loc) :
  l ∈ ed -> keeping ed (update_one iotData l).
Proof.
  intros Hin. unfold update_one.
  apply keeping_bind; [apply keeping_Get | intros mapping].
  apply keeping_bind; [apply keeping_read_equipmentNumber | intros number].
  apply keeping_bind; [apply keeping_Get | intros deviceId].
  apply keeping_bind.
  { unfold same_device. destruct (truthy deviceId); [| apply keeping_ret].
    apply keeping_bind; [apply keeping_Get | intros d; apply keeping_ret]. }
  intros [|]; cbn [when]; [| apply keeping_ret].
  apply keeping_bind; [apply keeping_Get | intros hours].
  apply keeping_bind; [eapply keeping_write_field; [exact Hin | left; reflexivity] |].
  intros _.
  apply keeping_bind; [apply keeping_Get | intros updated].
  apply keeping_bind; [eapply keeping_write_field; [exact Hin | right; reflexivity] |].
  intros _.
  apply keeping_bind; [apply keeping_read_equipmentNumber | intros number'].
  apply keeping_bind; [apply keeping_Get | intros hours'].
  apply keeping_bind; [apply keeping_settle | intros text].
  apply keeping_console_log.
Qed.

Lemma keeping_forEach (ed ls : list loc) iotData :
  (forall l, l ∈ ls -> l ∈ ed) -> keeping ed (forEach ls (update_one iotData)).
Proof.
  induction ls as [| x rest IH]; intros Hsub; [apply keeping_ret |].
  cbn [forEach]. apply keeping_bind.
  - apply keeping_update_one, Hsub. left.
  - intros _. apply IH. intros l Hl. apply Hsub. right. exact Hl.
Qed.

Lemma keeping_fetchIoTData (ed : list loc) this : keeping ed (fetchIoTData this).
Proof.
  intros w. destruct (fetchIoTData_returns this w) as (data & entry & ->).
  repeat split. intros l. apply kept_record_refl.
Qed.

Lemma keeping_updateEquipmentWithIoTData (ed : list loc) this :
  keeping ed (updateEquipmentWithIoTData this ed).
Proof.
  unfold updateEquipmentWithIoTData.
  apply keeping_bind; [apply keeping_fetchIoTData | intros iotData].
  apply keeping_bind.
  { unfold nothing_to_merge. destruct (negb (truthy iotData)); [apply keeping_ret |].
    apply keeping_bind; [apply keeping_Get | intros m; apply keeping_ret]. }
  intros [|].
  - apply keeping_bind; [apply keeping_console_log | intros _; apply keeping_ret].
  - apply keeping_bind; [apply keeping_forEach; auto | intros _; apply keeping_ret].
Qed.

Lemma updateEquipmentWithIoTData_returns_array this (ed returned : list loc) w w' :
  updateEquipmentWithIoTData this ed w = (Val returned, w') -> returned = ed.
Proof.
  unfold updateEquipmentWithIoTData, bind.
  destruct (fetchIoTData this w) as [[iotData | e] w1]; [| discriminate].
  destruct (nothing_to_merge iotData w1) as [[[|] | e] w2]; [| | discriminate].
  - unfold console_log, ret. intros [= <- _]. reflexivity.
  - destruct (forEach ed (update_one iotData) w2) as [[[] | e] w3]; [| discriminate].
    unfold ret. intros [= <- _]. reflexivity.
Qed.

(** X1.  However [updateEquipmentWithIoTData] ends, by returning or by
    throwing, it has added and removed no record, every record has kept its
    [equipmentNumber], the caller's own fields and its extensibility, the
    records outside the array are as they were, and neither the timers, the
    clock, the recorded runs nor the network have changed.  When it returns,
    it returns the array it was given. *)
Theorem updateEquipmentWithIoTData_keeps_records this w (equipmentData : list loc) :
  exists result w',
    updateEquipmentWithIoTData this equipmentData w = (result, w')
    /\ (forall returned, result = Val returned -> returned = equipmentData)
    /\ dom (heap w') = dom (heap w)
    /\ (forall l r, heap w !! l = Some r ->
          exists r', heap w' !! l = Some r'
            /\ equipmentNumber r' = equipmentNumber r
            /\ other_fields r' = other_fields r
            /\ extensible r' = extensible r)
    /\ (forall l, l ∉ equipmentData -> heap w' !! l = heap w !! l)
    /\ timers w' = timers w
    /\ calls w' = calls w
    /\ now w' = now w
    /\ network w' = network w.
Proof.
  pose proof (keeping_updateEquipmentWithIoTData equipmentData this w) as Hkeeps.
  destruct (updateEquipmentWithIoTData this equipmentData w) as [result w'] eqn:Hrun.
  cbn [snd] in Hkeeps. destruct Hkeeps as (Hn & Ht & Hti & _ & Hc & Hr).
  exists result, w'. split; [reflexivity |].
  split; [intros returned ->; eapply updateEquipmentWithIoTData_returns_array, Hrun |].
  split; [| split; [| split; [| repeat split; assumption]]].
  - apply set_eq. intros l. rewrite !elem_of_dom. specialize (Hr l).
    destruct (heap w !! l), (heap w' !! l); cbn in Hr; try tauto;
      split; intros [x Hx]; eauto; discriminate.
  - intros l r Hl. specialize (Hr l). rewrite Hl in Hr.
    destruct (heap w' !! l) as [r' |]; cbn in Hr; [| tauto].
    exists r'. tauto.
  - intros l Hout. specialize (Hr l).
    rewrite (bool_decide_eq_false_2 _ Hout) in Hr.
    destruct (heap w !! l), (heap w' !! l); cbn in Hr; try tauto.
    destruct Hr as (_ & _ & _ & ->); reflexivity.
Qed.

(** X2.  When the document can be merged, its [current_hours] converts to a
    string and the records take the merge, the merge writes to the console,
    after the line of the fetch, one line for each position of the array
    whose record receives the reading, in the order of the array, and no
    other line: none at all when no record matches, and two for a record that
    is listed twice. *)
Theorem updateEquipmentWithIoTData_logs this w w1 iotData (hours : string)
    (equipmentData : list loc) :
  fetchIoTData this w = (Val iotData, w1) ->
  mergeable iotData = true ->
  ToString (property iotData "current_hours") = Val hours ->
  mergeable_records iotData (heap w) equipmentData ->
  exists w',
    updateEquipmentWithIoTData this equipmentData w = (Val equipmentData, w')
    /\ console w'
       = (console w1 ++ update_lines hours iotData (heap w) equipmentData)%list
    /\ length (update_lines hours iotData (heap w) equipmentData)
       = length (filter (fun l => matches iotData (heap w) l = true) equipmentData).
Proof.
  intros Hfetch Hmergeable Hhours Hlive.
  destruct (updateEquipmentWithIoTData_run this w _ iotData hours equipmentData
              Hfetch Hhours Hlive)
    as (h' & Hrun & _).
  rewrite Hmergeable in Hrun.
  eexists. split; [exact Hrun |]. split; [reflexivity |].
  clear. unfold update_lines.
  induction equipmentData as [| l ls IH]; [reflexivity |].
  cbn [flat_map]. rewrite length_app, IH.
  destruct (matches iotData (heap w) l) eqn:Hl;
    pose proof Hl as Hm; unfold matches in Hm.
  - rewrite filter_cons_True by exact Hl.
    destruct (heap w !! l); [rewrite Hm; reflexivity | discriminate].
  - rewrite filter_cons_False by (rewrite Hl; discriminate).
    destruct (heap w !! l); [rewrite Hm |]; reflexivity.
Qed.

(** X3.  Merging twice is merging once: when the document's [current_hours]
    converts to a string and the records take the merge, a second call on the
    same array, with the server answering as before, returns like the first
    and leaves every record as the first call left it. *)
Theorem updateEquipmentWithIoTData_twice this w w1 iotData (hours : string)
    (equipmentData : list loc) :
  fetchIoTData this w = (Val iotData, w1) ->
  ToString (property iotData "current_hours") = Val hours ->
  mergeable_records iotData (heap w) equipmentData ->
  exists w' w'',
    updateEquipmentWithIoTData this equipmentData w = (Val equipmentData, w')
    /\ updateEquipmentWithIoTData this equipmentData w' = (Val equipmentData, w'')
    /\ heap w'' = heap w'.
Proof.
  intros Hfetch Hhours Hlive.
  destruct (fetchIoTData_frame _ _ _ _ Hfetch) as [entry ->].
  destruct (updateEquipmentWithIoTData_run this w _ iotData hours equipmentData
              Hfetch Hhours Hlive)
    as (h' & Hrun & Hheap).
  set (w' := with_console _ (with_heap h' (logged entry w))) in Hrun.
  destruct (fetchIoTData_returns this w') as (iotData' & entry' & Hfetch').
  assert (iotData' = iotData) as ->.
  { pose proof (fetchIoTData_same_network this w w' eq_refl) as Hsame.
    rewrite Hfetch, Hfetch' in Hsame. cbn in Hsame. congruence. }
  destruct (updateEquipmentWithIoTData_run this w' _ iotData hours equipmentData
              Hfetch' Hhours)
    as (h'' & Hrun' & Hheap').
  { intros l Hl. destruct (Hlive l Hl) as (r & Hr & Haccepts).
    subst w'. cbn [with_console with_heap heap]. rewrite Hheap, Hr.
    eexists. split; [reflexivity |].
    unfold after_merge.
    destruct (mergeable iotData && bool_decide (l ∈ equipmentData)
              && receives_reading iotData r); [intros _; apply accepts_merged |].
    exact Haccepts. }
  eexists _, _. split; [exact Hrun |]. split; [exact Hrun' |].
  cbn [with_console with_heap logged heap].
  apply map_eq. intros l. rewrite Hheap'.
  subst w'. cbn [with_console with_heap heap]. rewrite Hheap.
  destruct (heap w !! l); cbn; [| reflexivity].
  rewrite after_merge_idempotent. reflexivity.
Qed.

Lemma forEach_app {A : Type} (l1 l2 : list A) (body : A -> M unit) w :
  forEach (l1 ++ l2) body w
  = match forEach l1 body w with
    | (Val _, w') => forEach l2 body w'
    | (Exn e, w') => (Exn e, w')
    end.
Proof.
  revert w. induction l1 as [| x l1 IH]; intros w; [reflexivity |].
  cbn [app forEach]. unfold bind.
  destruct (body x w) as [[[] | e] w1]; [apply IH | reflexivity].
Qed.

Lemma update_one_no_record iotData (l : loc) w :
  truthy iotData = true ->
  heap w !! l = None ->
  exists e, update_one iotData l w = (Exn e, w) /\ error_name e = "TypeError".
Proof.
  intros Hdata Hnone. unfold update_one, bind.
  rewrite Get_defined by exact Hdata. unfold ret at 1.
  unfold read_equipmentNumber. rewrite Hnone. eexists. split; reflexivity.
Qed.

(** X4.  When the document can be merged, its [current_hours] converts to a
    string, and the array holds, after records that take the merge, an
    element that is not a record ([null] or [undefined]),
    [updateEquipmentWithIoTData] throws a TypeError at that element; by then
    the records before it have been merged, and they stay merged. *)
Theorem updateEquipmentWithIoTData_throws_midway this w w1 iotData (hours : string)
    (before after : list loc) (bad : loc) :
  fetchIoTData this w = (Val iotData, w1) ->
  mergeable iotData = true ->
  ToString (property iotData "current_hours") = Val hours ->
  mergeable_records iotData (heap w) before ->
  heap w !! bad = None ->
  exists e w',
    updateEquipmentWithIoTData this (before ++ bad :: after) w = (Exn e, w')
    /\ error_name e = "TypeError"
    /\ forall l, heap w' !! l = after_merge iotData before l <$> heap w !! l.
Proof.
  intros Hfetch Hmergeable Hhours Hlive Hbad.
  destruct (fetchIoTData_frame _ _ _ _ Hfetch) as [entry ->].
  pose proof Hmergeable as Hboth. unfold mergeable in Hboth.
  apply andb_prop in Hboth as [Hdata Hmapping].
  destruct (forEach_update_one_world iotData hours before Hdata Hmapping Hhours
              (logged entry w) Hlive)
    as (h' & Hrun & Hheap).
  set (w2 := with_console _ (with_heap h' (logged entry w))) in Hrun.
  destruct (update_one_no_record iotData bad w2 Hdata) as (e & Hthrow & Hname).
  { subst w2. cbn [with_console with_heap heap]. rewrite Hheap.
    cbn [logged with_console heap]. rewrite Hbad. reflexivity. }
  exists e, w2. split; [| split; [exact Hname |]].
  - unfold updateEquipmentWithIoTData, bind. rewrite Hfetch.
    unfold nothing_to_merge. rewrite Hdata. cbn [negb].
    rewrite Get_defined by exact Hdata. unfold bind, ret at 1. unfold ret at 1.
    rewrite Hmapping. cbn [negb].
    rewrite forEach_app, Hrun. cbn [forEach]. unfold bind at 1.
    rewrite Hthrow. reflexivity.
  - intros l. subst w2. cbn [with_console with_heap heap]. rewrite Hheap.
    unfold after_merge. rewrite Hmergeable. reflexivity.
Qed.

Lemma update_one_skips iotData (l : loc) w (r : EquipmentRecord) :
  truthy iotData = true ->
  truthy (property iotData "equipment_mapping") = true ->
  heap w !! l = Some r ->
  receives_reading iotData r = false ->
  update_one iotData l w = (Val tt, w).
Proof.
  intros Hdata Hmapping Hheap Hr.
  unfold update_one, bind.
  rewrite Get_defined by exact Hdata. unfold ret at 1.
  unfold read_equipmentNumber at 1. rewrite Hheap.
  rewrite Get_defined by exact Hmapping. unfold ret at 1.
  unfold same_device, receives_reading in *.
  destruct (truthy (property (property iotData "equipment_mapping") (equipmentNumber r)));
    [| reflexivity].
  rewrite Get_defined by exact Hdata. unfold bind, ret at 1. unfold ret at 1.
  cbn [andb] in Hr. rewrite Hr. reflexivity.
Qed.

Lemma forEach_skips iotData (ls : list loc) w :
  truthy iotData = true ->
  truthy (property iotData "equipment_mapping") = true ->
  (forall l, l ∈ ls ->
     exists r, heap w !! l = Some r /\ receives_reading iotData r = false) ->
  forEach ls (update_one iotData) w = (Val tt, w).
Proof.
  intros Hdata Hmapping. induction ls as [| x rest IH]; intros Hnone; [reflexivity |].
  destruct (Hnone x) as (r & Hx & Hr); [left |].
  cbn [forEach]. unfold bind.
  rewrite (update_one_skips iotData x w r Hdata Hmapping Hx Hr).
  apply IH. intros l Hl. apply Hnone. right. exact Hl.
Qed.

(** The merge up to the first record that receives the reading. *)
Lemma updateEquipmentWithIoTData_first_match this w w1 iotData
    (before after : list loc) (x : loc) :
  fetchIoTData this w = (Val iotData, w1) ->
  mergeable iotData = true ->
  (forall l, l ∈ before ->
     exists r, heap w !! l = Some r /\ receives_reading iotData r = false) ->
  updateEquipmentWithIoTData this (before ++ x :: after) w
  = match update_one iotData x w1 with
    | (Val _, w2) =>
        match forEach after (update_one iotData) w2 with
        | (Val _, w3) => (Val (before ++ x :: after)%list, w3)
        | (Exn e, w3) => (Exn e, w3)
        end
    | (Exn e, w2) => (Exn e, w2)
    end.
Proof.
  intros Hfetch Hmergeable Hnone.
  destruct (fetchIoTData_frame _ _ _ _ Hfetch) as [entry ->].
  unfold mergeable in Hmergeable. apply andb_prop in Hmergeable as [Hdata Hmapping].
  unfold updateEquipmentWithIoTData, bind. rewrite Hfetch.
  unfold nothing_to_merge. rewrite Hdata. cbn [negb].
  rewrite Get_defined by exact Hdata. unfold bind, ret at 1. unfold ret at 1.
  rewrite Hmapping. cbn [negb].
  rewrite forEach_app, (forEach_skips iotData before (logged entry w) Hdata Hmapping Hnone).
  cbn [forEach]. unfold bind.
  destruct (update_one iotData x (logged entry w)) as [[[] | e] w2]; [| reflexivity].
  destruct (forEach after (update_one iotData) w2) as [[[] | e] w3]; reflexivity.
Qed.

(** X18.  When the document can be merged but its [current_hours] does not
    convert to a string (an object whose [toString] is not callable), the
    first record of the array that receives the reading is written, with both
    fields, and then [updateEquipmentWithIoTData] throws the error of the
    conversion: no line is logged for the record and no later record is
    touched. *)
Theorem updateEquipmentWithIoTData_unprintable_hours this w w1 iotData (e : js_error)
    (before after : list loc) (x : loc) (rx : EquipmentRecord) :
  fetchIoTData this w = (Val iotData, w1) ->
  mergeable iotData = true ->
  ToString (property iotData "current_hours") = Exn e ->
  (forall l, l ∈ before ->
     exists r, heap w !! l = Some r /\ receives_reading iotData r = false) ->
  heap w !! x = Some rx ->
  receives_reading iotData rx = true ->
  accepts rx = true ->
  updateEquipmentWithIoTData this (before ++ x :: after) w
  = (Exn e, with_heap (<[x := merged iotData rx]> (heap w)) w1).
Proof.
  intros Hfetch Hmergeable Hhours Hnone Hx Hrx Haccepts.
  rewrite (updateEquipmentWithIoTData_first_match _ _ _ _ _ _ _ Hfetch Hmergeable Hnone).
  destruct (fetchIoTData_frame _ _ _ _ Hfetch) as [entry ->].
  unfold mergeable in Hmergeable. apply andb_prop in Hmergeable as [Hdata Hmapping].
  assert (update_one iotData x (logged entry w)
          = (Exn e, with_heap (<[x := merged iotData rx]> (heap w)) (logged entry w)))
    as ->; [| reflexivity].
  unfold update_one, bind.
  rewrite Get_defined by exact Hdata. unfold ret at 1.
  unfold read_equipmentNumber at 1. cbn [logged with_console heap]. rewrite Hx.
  rewrite Get_defined by exact Hmapping. unfold ret at 1.
  unfold same_device, receives_reading in *.
  destruct (truthy (property (property iotData "equipment_mapping") (equipmentNumber rx)));
    [| discriminate].
  rewrite Get_defined by exact Hdata. unfold bind, ret at 1. unfold ret at 1.
  cbn [andb] in Hrx. rewrite Hrx. cbn [when].
  destruct (assignments_accepted iotData rx Haccepts) as (r1 & Hfirst & Hsecond).
  rewrite !Get_defined by exact Hdata.
  unfold bind, ret, settle, write_field, read_equipmentNumber.
  cbn [logged with_console heap]. rewrite Hx, Hfirst. cbn [heap with_heap].
  rewrite lookup_insert_eq, Hsecond. cbn [heap with_heap].
  rewrite lookup_insert_eq, insert_insert_eq, Hhours.
  reflexivity.
Qed.

(** X19.  When the document can be merged and the first record of the array
    that receives the reading refuses the assignment to [currentHours], as a
    frozen record does, [updateEquipmentWithIoTData] throws the TypeError of
    that assignment and has written nothing: every record is as it was, and
    the console has only the line of the fetch. *)
Theorem updateEquipmentWithIoTData_refused this w w1 iotData (refusal : type_error)
    (before after : list loc) (x : loc) (rx : EquipmentRecord) :
  fetchIoTData this w = (Val iotData, w1) ->
  mergeable iotData = true ->
  (forall l, l ∈ before ->
     exists r, heap w !! l = Some r /\ receives_reading iotData r = false) ->
  heap w !! x = Some rx ->
  receives_reading iotData rx = true ->
  set_currentHours (property iotData "current_hours") rx = inl refusal ->
  updateEquipmentWithIoTData this (before ++ x :: after) w
  = (Exn {| error_name := "TypeError"; error_message := type_error_message refusal |}, w1).
Proof.
  intros Hfetch Hmergeable Hnone Hx Hrx Hrefused.
  rewrite (updateEquipmentWithIoTData_first_match _ _ _ _ _ _ _ Hfetch Hmergeable Hnone).
  destruct (fetchIoTData_frame _ _ _ _ Hfetch) as [entry ->].
  unfold mergeable in Hmergeable. apply andb_prop in Hmergeable as [Hdata Hmapping].
  assert (update_one iotData x (logged entry w)
          = (Exn (TypeError (type_error_message refusal)), logged entry w))
    as ->; [| reflexivity].
  unfold update_one, bind.
  rewrite Get_defined by exact Hdata. unfold ret at 1.
  unfold read_equipmentNumber at 1. cbn [logged with_console heap]. rewrite Hx.
  rewrite Get_defined by exact Hmapping. unfold ret at 1.
  unfold same_device, receives_reading in *.
  destruct (truthy (property (property iotData "equipment_mapping") (equipmentNumber rx)));
    [| discriminate].
  rewrite Get_defined by exact Hdata. unfold bind, ret at 1. unfold ret at 1.
  cbn [andb] in Hrx. rewrite Hrx. cbn [when].
  rewrite !Get_defined by exact Hdata.
  unfold bind, ret, write_field.
  cbn [logged with_console heap]. rewrite Hx, Hrefused. reflexivity.
Qed.

(** ** What counts as no data *)

(** X5.  A body that parses to [false], to zero or to the empty string is
    treated like [null]: [getIoTStatus] reports that the data is unavailable
    and [updateEquipmentWithIoTData] returns its array without reading it. *)
Theorem falsy_body_is_no_data this w w1 iotData (equipmentData : list loc) :
  fetchIoTData this w = (Val iotData, w1) ->
  iotData = VBool false \/ (exists sign, iotData = VNum (S754_zero sign))
  \/ iotData = VStr "" \/ iotData = VNull ->
  getIoTStatus this w
  = (Val {[ "status" := VStr "offline";
            "message" := VStr "IoT data unavailable";
            "lastUpdate" := VStr "Never" ]}, w1)
  /\ updateEquipmentWithIoTData this equipmentData w
     = (Val equipmentData,
        logged (Log [Text "No IoT data available or no equipment mapping"]) w1).
Proof.
  intros Hfetch Hfalsy.
  assert (truthy iotData = false) as Hno.
  { destruct Hfalsy as [-> | [[sign ->] | [-> | ->]]]; reflexivity. }
  split.
  - exact (getIoTStatus_absent _ _ _ _ Hfetch Hno).
  - exact (updateEquipmentWithIoTData_absent _ _ _ _ _ Hfetch Hno).
Qed.

(** X6.  A document whose [equipment_mapping] is there but falsy ([null],
    [false], zero or the empty string) is treated as one without a mapping:
    the array is returned, one line is logged, and no record is read or
    written, so that even an array with elements that are not records does
    not make the call throw. *)
Theorem falsy_mapping_is_no_mapping this w w1 (doc : gmap string value)
    (mapping : value) (equipmentData : list loc) :
  fetchIoTData this w = (Val (VObj doc), w1) ->
  doc !! "equipment_mapping" = Some mapping ->
  truthy mapping = false ->
  updateEquipmentWithIoTData this equipmentData w
  = (Val equipmentData,
     logged (Log [Text "No IoT data available or no equipment mapping"]) w1).
Proof.
  intros Hfetch Hmapping Hfalsy.
  unfold updateEquipmentWithIoTData, bind. rewrite Hfetch.
  unfold nothing_to_merge, bind; cbn [truthy negb Get ret property].
  rewrite Hmapping, Hfalsy. reflexivity.
Qed.

(** X7.  For a document typed as the interface says, with strings as the
    values of [equipment_mapping] and as [device_id], a record receives the
    reading exactly when its [equipmentNumber] is an own key of the mapping,
    mapped to a string that is not empty and is the document's [device_id].
    In particular a number that only names a member of [Object.prototype],
    such as "toString", never matches. *)
Theorem receives_reading_typed (doc mapping : gmap string value) (r : EquipmentRecord) :
  doc !! "equipment_mapping" = Some (VObj mapping) ->
  (forall k d, mapping !! k = Some d -> exists s, d = VStr s) ->
  (forall d, doc !! "device_id" = Some d -> exists s, d = VStr s) ->
  receives_reading (VObj doc) r = true
  <-> exists s, s <> ""
        /\ mapping !! equipmentNumber r = Some (VStr s)
        /\ doc !! "device_id" = Some (VStr s).
Proof.
  intros Hmapping Hvalues Hdevice.
  unfold receives_reading, property. rewrite Hmapping. cbv beta iota.
  assert (forall v, (match doc !! "device_id" with
                     | Some d => d
                     | None => if bool_decide ("device_id" ∈ Object_prototype)
                               then VHost "device_id" else VUndef
                     end) = v ->
            (exists s, v = VStr s /\ doc !! "device_id" = Some (VStr s))
            \/ (v = VUndef /\ doc !! "device_id" = None))
    as Hid.
  { intros v <-. destruct (doc !! "device_id") as [d |] eqn:Hd.
    - destruct (Hdevice d eq_refl) as [s ->]. left. eauto.
    - right. split; reflexivity. }
  destruct (Hid _ eq_refl) as [(id & -> & Hown) | [-> Hown]]; clear Hid.
  - destruct (mapping !! equipmentNumber r) as [d |] eqn:Hk.
    + destruct (Hvalues _ _ Hk) as [s ->]. split.
      * intros Hboth. apply andb_prop in Hboth as [Hs Heq].
        apply String.eqb_eq in Heq. subst id. exists s.
        split; [| split; [reflexivity | exact Hown]].
        intros ->. discriminate Hs.
      * intros (s' & Hne & [= <-] & Hown'). rewrite Hown in Hown'.
        injection Hown' as ->. cbn [strict_equal]. rewrite String.eqb_refl, andb_true_r.
        destruct s; [congruence | reflexivity].
    + split.
      * destruct (bool_decide (equipmentNumber r ∈ Object_prototype)); discriminate.
      * intros (s' & _ & Hs' & _). discriminate.
  - split.
    + destruct (mapping !! equipmentNumber r) as [d |] eqn:Hk.
      * destruct (Hvalues _ _ Hk) as [s ->]. cbn [strict_equal].
        rewrite andb_false_r. discriminate.
      * destruct (bool_decide (equipmentNumber r ∈ Object_prototype)); discriminate.
    + intros (s' & _ & _ & Hown'). congruence.
Qed.

(** ** What a retrieval leaves behind *)

(** X8.  Each call of [fetchIoTData] adds exactly one line to the console and
    changes nothing else.  The line carries the parsed body on success; the
    reason of the rejection when the request fails; an Error whose message is
    "HTTP error! status: " followed by the status in decimal when the
    response is not ok; and the error of [json()] when the body does not
    parse. *)
Theorem fetchIoTData_console this w :
  match network w (iotDataFile this) with
  | Rejects reason =>
      fetchIoTData this w
      = (Val VNull, logged (Err [Text "Error fetching IoT data:"; Thrown reason]) w)
  | Resolves r =>
      if ok r then
        match json r with
        | Val data =>
            fetchIoTData this w
            = (Val data, logged (Log [Text "IoT data fetched:"; Shown data]) w)
        | Exn e =>
            fetchIoTData this w
            = (Val VNull, logged (Err [Text "Error fetching IoT data:"; Thrown e]) w)
        end
      else
        fetchIoTData this w
        = (Val VNull,
           logged (Err [Text "Error fetching IoT data:";
                        Thrown {| error_name := "Error";
                                  error_message :=
                                    "HTTP error! status: " +:+ show_Z (status r) |}]) w)
  end.
Proof.
  destruct (network w (iotDataFile this)) as [reason | r] eqn:Hnet.
  - apply fetchIoTData_failure. rewrite Hnet. reflexivity.
  - destruct (ok r) eqn:Hok.
    + destruct (json r) as [data | e] eqn:Hjson.
      * eapply fetchIoTData_success; eassumption.
      * apply fetchIoTData_failure. rewrite Hnet; cbn. rewrite Hok, Hjson. reflexivity.
    + apply fetchIoTData_failure. rewrite Hnet; cbn. rewrite Hok. reflexivity.
Qed.

(** ** The report *)

Lemma getIoTStatus_present_literal this w w1 iotData (lastUpdate : number) :
  fetchIoTData this w = (Val iotData, w1) ->
  truthy iotData = true ->
  new_Date (property iotData "last_updated") = Val lastUpdate ->
  exists status message : string,
    getIoTStatus this w
    = (Val {[ "status" := VStr status;
              "message" := VStr message;
              "lastUpdate" := VStr (toLocaleString lastUpdate);
              "deviceId" := property iotData "device_id";
              "currentHours" := property iotData "current_hours" ]}, w1).
Proof.
  intros Hfetch Htruthy Hdate.
  destruct (fetchIoTData_frame _ _ _ _ Hfetch) as [entry ->].
  unfold getIoTStatus, bind. rewrite Hfetch, Htruthy. cbn [negb].
  rewrite !Get_defined by exact Htruthy.
  unfold ret, settle, Date_now. rewrite Hdate.
  destruct (greater _ 60), (greater _ 1440); eexists _, _; reflexivity.
Qed.


(** X9.  Whenever the fetched value is truthy and the [Date] constructor
    makes a date, valid or not, of its [last_updated], the report has exactly
    five fields, and whatever its status, fresh or stale or offline, it
    carries the document's [device_id] and [current_hours] as they are
    ([undefined] when the document lacks them) and the localized date. *)
Theorem getIoTStatus_carries_document this w w1 iotData (lastUpdate : number) :
  fetchIoTData this w = (Val iotData, w1) ->
  truthy iotData = true ->
  new_Date (property iotData "last_updated") = Val lastUpdate ->
  exists report : gmap string value,
    getIoTStatus this w = (Val report, w1)
    /\ dom report = {[ "status"; "message"; "lastUpdate"; "deviceId"; "currentHours" ]}
    /\ report !! "deviceId" = Some (property iotData "device_id")
    /\ report !! "currentHours" = Some (property iotData "current_hours")
    /\ report !! "lastUpdate" = Some (VStr (toLocaleString lastUpdate)).
Proof.
  intros Hfetch Htruthy Hdate.
  destruct (getIoTStatus_present_literal _ _ _ _ _ Hfetch Htruthy Hdate)
    as (status & message & Hrun).
  eexists. split; [exact Hrun |].
  split; [| repeat split; reflexivity].
  rewrite !dom_insert_L, dom_singleton_L. set_solver.
Qed.


Lemma elapsed_minutes_bounds (t_now t : Z) :
  60000 * elapsed_minutes t_now t <= t_now - t < 60000 * elapsed_minutes t_now t + 60000.
Proof.
  unfold elapsed_minutes.
  pose proof (Z.div_mod (t_now - t) 60000 ltac:(lia)).
  pose proof (Z.mod_pos_bound (t_now - t) 60000 ltac:(lia)).
  lia.
Qed.

(** X11.  In milliseconds: the report is online until 61 minutes have gone
    by since [last_updated], stale from then until 24 hours and one minute
    have gone by, and offline from then on.  In a stale message the hours
    are from 1 to 24, the minutes from 0 to 59, and together they make up
    the whole minutes elapsed. *)
Theorem getIoTStatus_by_milliseconds this w w1 iotData (t : Z) :
  fetchIoTData this w = (Val iotData, w1) ->
  truthy iotData = true ->
  new_Date (property iotData "last_updated") = Val (Some t) ->
  exists report : gmap string value,
    getIoTStatus this w = (Val report, w1)
    /\ (now w - t < 3660000 -> report !! "status" = Some (VStr "online"))
    /\ (3660000 <= now w - t < 86460000 ->
        report !! "status" = Some (VStr "stale")
        /\ exists hours minutes : Z,
             report !! "message"
             = Some (VStr ("IoT data stale (" +:+ show_Z hours +:+ "h "
                           +:+ show_Z minutes +:+ "m ago)"))
             /\ 1 <= hours <= 24 /\ 0 <= minutes <= 59
             /\ 60 * hours + minutes = elapsed_minutes (now w) t)
    /\ (86460000 <= now w - t -> report !! "status" = Some (VStr "offline")).
Proof.
  intros Hfetch Htruthy Hdate.
  destruct (getIoTStatus_present _ _ _ _ _ Hfetch Htruthy Hdate)
    as (report & Hrun & Hstatus & Hmessage & _).
  exists report. split; [exact Hrun |].
  cbn [minus floor_div greater remainder show_number] in Hstatus, Hmessage.
  fold (elapsed_minutes (now w) t) in Hstatus, Hmessage.
  pose proof (elapsed_minutes_bounds (now w) t) as Hbounds.
  set (elapsed := elapsed_minutes (now w) t) in *.
  rewrite Hstatus, Hmessage.
  split; [| split]; intros Hrange.
  - destruct (Z.ltb_spec 1440 elapsed); [lia |].
    destruct (Z.ltb_spec 60 elapsed); [lia | reflexivity].
  - destruct (Z.ltb_spec 1440 elapsed); [lia |].
    destruct (Z.ltb_spec 60 elapsed); [| lia].
    split; [reflexivity |].
    exists (elapsed / 60), (Z.rem elapsed 60).
    split; [reflexivity |].
    rewrite Z.rem_mod_nonneg by lia.
    pose proof (Z.div_mod elapsed 60 ltac:(lia)).
    pose proof (Z.mod_pos_bound elapsed 60 ltac:(lia)).
    lia.
  - destruct (Z.ltb_spec 1440 elapsed); [reflexivity | lia].
Qed.

Lemma show_Z_negative (z : Z) : 0 < z -> show_Z (- z) = "-" +:+ show_Z z.
Proof. destruct z as [| p | p]; intros Hz; try lia. reflexivity. Qed.

(** X12.  A [last_updated] that lies in the future, by however little, is
    reported as online, and the message counts the minutes below zero: the
    flooring rounds away from zero, so one millisecond ahead reads
    "-1 min ago". *)
Theorem getIoTStatus_future this w w1 iotData (t : Z) :
  fetchIoTData this w = (Val iotData, w1) ->
  truthy iotData = true ->
  new_Date (property iotData "last_updated") = Val (Some t) ->
  now w < t ->
  exists (report : gmap string value) (ahead : Z),
    getIoTStatus this w = (Val report, w1)
    /\ report !! "status" = Some (VStr "online")
    /\ report !! "message"
       = Some (VStr ("IoT data current (-" +:+ show_Z ahead +:+ " min ago)"))
    /\ 1 <= ahead
    /\ 60000 * (ahead - 1) < t - now w <= 60000 * ahead.
Proof.
  intros Hfetch Htruthy Hdate Hfuture.
  destruct (getIoTStatus_present _ _ _ _ _ Hfetch Htruthy Hdate)
    as (report & Hrun & Hstatus & Hmessage & _).
  cbn [minus floor_div greater remainder show_number] in Hstatus, Hmessage.
  fold (elapsed_minutes (now w) t) in Hstatus, Hmessage.
  pose proof (elapsed_minutes_bounds (now w) t) as Hbounds.
  set (elapsed := elapsed_minutes (now w) t) in *.
  exists report, (- elapsed). split; [exact Hrun |].
  rewrite Hstatus, Hmessage.
  destruct (Z.ltb_spec 1440 elapsed); [lia |].
  destruct (Z.ltb_spec 60 elapsed); [lia |].
  split; [reflexivity |]. split; [| lia].
  replace elapsed with (- - elapsed) at 1 by lia.
  rewrite show_Z_negative by lia. reflexivity.
Qed.

(** ** Starting, waiting and stopping *)

Lemma tick_handles w :
  map handle (timers (tick w)) = map handle (timers w)
  /\ next_handle (tick w) = next_handle w.
Proof.
  split; [| reflexivity]. cbn [tick timers].
  induction (timers w) as [| t ts IH]; [reflexivity |].
  cbn [map]. rewrite fire_handle. f_equal. exact IH.
Qed.

Lemma elapse_handles (ms : nat) w :
  map handle (timers (elapse ms w)) = map handle (timers w)
  /\ next_handle (elapse ms w) = next_handle w.
Proof.
  induction ms as [| ms [IHt IHn]]; [split; reflexivity |].
  change (elapse (S ms) w) with (tick (elapse ms w)).
  destruct (tick_handles (elapse ms w)) as [Ht Hn]. split; congruence.
Qed.

Lemma filter_other_handles (h : positive) (ts : list timer) :
  (forall t, t ∈ ts -> handle t <> h) ->
  filter (fun t => handle t <> h) ts = ts.
Proof.
  induction ts as [| t ts IH]; intros Hother; [reflexivity |].
  rewrite filter_cons_True by (apply Hother; left).
  f_equal. apply IH. intros t' Hin. apply Hother. right. exact Hin.
Qed.

Lemma map_handle_filter (h : positive) (ts : list timer) :
  map handle (filter (fun t => handle t <> h) ts)
  = filter (fun x => x <> h) (map handle ts).
Proof.
  induction ts as [| t ts IH]; [reflexivity |].
  cbn [map]. destruct (decide (handle t = h)) as [Heq | Hne].
  - rewrite !filter_cons_False by (intros Hne; apply Hne, Heq). exact IH.
  - rewrite !filter_cons_True by exact Hne. cbn [map]. f_equal. exact IH.
Qed.

Lemma filter_others_and_own (h : positive) (others : list positive) :
  h ∉ others -> filter (fun x => x <> h) (others ++ [h])%list = others.
Proof.
  intros Hout. rewrite filter_app.
  rewrite (filter_cons_False _ h) by (intros Hne; apply Hne; reflexivity).
  rewrite filter_nil, app_nil_r.
  induction others as [| x xs IH]; [reflexivity |].
  apply not_elem_of_cons in Hout as [Hne Hout].
  rewrite filter_cons_True by congruence. f_equal. apply IH, Hout.
Qed.

Lemma perform_in_step (others : list positive) (a : action) this w :
  in_step others this w ->
  exists this' w', perform a this w = (Val this', w') /\ in_step others this' w'.
Proof.
  intros [Hslot Hbelow]. destruct a as [cb | | ms]; cbn [perform].
  - destruct (updateTimer this) as [| | h] eqn:Hu.
    1, 2: destruct Hslot as [Hoff Hothers];
      rewrite (startAutoUpdate_disabled this cb w Hoff); eexists _, _;
      (split; [reflexivity |]); unfold in_step;
      cbn [updateTimer autoUpdateEnabled with_timers logged with_console timers next_handle];
      rewrite map_app, Hothers; cbn [map handle];
      (split; [split; [reflexivity | split; [reflexivity |]] |]);
      [ intros Hin; rewrite <- Hothers in Hin; specialize (Hbelow _ Hin); lia
      | intros x Hx; apply elem_of_app in Hx as [Hx | Hx];
        [ rewrite <- Hothers in Hx; specialize (Hbelow _ Hx); lia
        | apply list_elem_of_singleton in Hx; subst x; lia ] ].
    destruct Hslot as (Hon & Hhandles & Hout).
    rewrite (startAutoUpdate_enabled this cb w Hon). eexists _, _.
    split; [reflexivity |]. unfold in_step. rewrite Hu.
    cbn [logged with_console timers next_handle]. auto.
  - destruct (updateTimer this) as [| | h] eqn:Hu.
    1, 2: exists this, w; unfold stopAutoUpdate; rewrite Hu;
      (split; [reflexivity |]); unfold in_step; rewrite Hu; auto.
    destruct Hslot as (Hon & Hhandles & Hout).
    rewrite (stopAutoUpdate_handle this h w Hu). eexists _, _.
    split; [reflexivity |]. unfold in_step.
    cbn [updateTimer autoUpdateEnabled with_timers logged with_console timers next_handle].
    rewrite map_handle_filter, Hhandles, filter_others_and_own by exact Hout.
    split; [split; reflexivity |].
    intros x Hx. apply Hbelow. rewrite Hhandles. apply elem_of_app. left. exact Hx.
  - exists this, (elapse ms w). split; [reflexivity |].
    destruct (elapse_handles ms w) as [Ht Hn].
    unfold in_step. rewrite Ht, Hn. auto.
Qed.

(** X13.  However a caller mixes starting, stopping and waiting, starting
    from an instance in step with the timer table (as a new instance is),
    no call throws and the instance stays in step: it is enabled exactly when
    [updateTimer] holds a handle, it then owns exactly one timer of the
    table, under that handle, and otherwise owns none.  So the table never
    holds more than one timer of the instance. *)
Theorem session_in_step (others : list positive) (actions : list action) this w :
  in_step others this w ->
  exists this' w',
    session actions this w = (Val this', w')
    /\ in_step others this' w'
    /\ autoUpdateEnabled this' = slot_truthy (updateTimer this')
    /\ length (timers w')
       = (length others + if autoUpdateEnabled this' then 1 else 0)%nat.
Proof.
  revert this w. induction actions as [| a rest IH]; intros this w Hstep.
  - exists this, w. split; [reflexivity |]. split; [exact Hstep |].
    destruct Hstep as [Hslot _].
    rewrite <- (length_map handle (timers w)).
    destruct (updateTimer this); cbn [slot_truthy].
    + destruct Hslot as [-> ->]. split; [reflexivity | lia].
    + destruct Hslot as [-> ->]. split; [reflexivity | lia].
    + destruct Hslot as (-> & -> & _). split; [reflexivity |].
      rewrite length_app. reflexivity.
  - destruct (perform_in_step others a this w Hstep) as (this1 & w1 & Hrun & Hstep1).
    destruct (IH this1 w1 Hstep1) as (this' & w' & Hrest & Hfinal).
    exists this', w'. split; [| exact Hfinal].
    cbn [session]. unfold bind. rewrite Hrun. exact Hrest.
Qed.

(** X14.  Starting and then stopping puts the timer table back as it was:
    the instance is disabled again, with [null] in [updateTimer]; no callback
    has run; the handle that was used is not given out again; and a second
    stop changes nothing. *)
Theorem start_then_stop this (cb : callback) w :
  autoUpdateEnabled this = false ->
  no_timer (next_handle w) w ->
  exists this1 w1 this2 w2,
    startAutoUpdate this cb w = (Val this1, w1)
    /\ stopAutoUpdate this1 w1 = (Val this2, w2)
    /\ timers w2 = timers w
    /\ calls w2 = calls w
    /\ heap w2 = heap w
    /\ autoUpdateEnabled this2 = false
    /\ updateTimer this2 = SlotNull
    /\ next_handle w2 = Pos.succ (next_handle w)
    /\ stopAutoUpdate this2 w2 = (Val this2, w2).
Proof.
  intros Hoff Hfresh.
  eexists _, _, _, _.
  split; [apply startAutoUpdate_disabled, Hoff |].
  split; [apply stopAutoUpdate_handle; reflexivity |].
  cbn [logged with_console with_timers timers calls heap next_handle
       autoUpdateEnabled updateTimer].
  split; [| repeat split].
  rewrite filter_app, filter_other_handles by exact Hfresh.
  rewrite filter_cons_False by (cbn; intros Hne; apply Hne; reflexivity).
  apply app_nil_r.
Qed.

(** X15.  With an [updateInterval] from 4 to 2147483647 ms, which every host
    runs as asked: start with a function, let [ms] milliseconds pass, stop:
    the function has run once for each whole period within [ms], at the whole
    multiples of the period, and it never runs again however long one waits
    after the stop. *)
Theorem start_wait_stop this (f : string) (ms : nat) w :
  autoUpdateEnabled this = false ->
  no_timer (next_handle w) w ->
  4 <= updateInterval this <= 2147483647 ->
  exists this1 w1 this2 w2,
    let h := next_handle w in
    startAutoUpdate this (Function f) w = (Val this1, w1)
    /\ stopAutoUpdate this1 (elapse ms w1) = (Val this2, w2)
    /\ (forall later : nat,
          calls_of h (elapse later w2)
          = (calls_of h w ++ expected_calls h f (now w) (updateInterval this) ms)%list)
    /\ length (expected_calls h f (now w) (updateInterval this) ms)
       = Z.to_nat (Z.of_nat ms / updateInterval this).
Proof.
  intros Hoff Hfresh Hrange.
  assert (0 < updateInterval this) as Hd by lia.
  pose proof (startAutoUpdate_disabled this (Function f) w Hoff) as Hstart.
  rewrite (timer_delay_usual _ Hrange) in Hstart.
  set (w1 := with_timers _ _ _) in Hstart.
  eexists _, w1, _, _. cbv zeta.
  split; [exact Hstart |].
  split; [apply stopAutoUpdate_handle; reflexivity |].
  split.
  - intros later.
    destruct (polling_elapse (next_handle w) f (updateInterval this) (now w)
                (calls_of (next_handle w) w) ms w1 Hd) as (ts & _ & _ & _ & Hcalls).
    { exists (timers w). repeat split.
      - subst w1. cbn [with_timers timers logged with_console].
        rewrite Z.div_0_l, Z.mul_1_l by lia. reflexivity.
      - exact Hfresh.
      - cbn. lia.
      - unfold expected_calls. rewrite Z.div_0_l by lia. cbn [Z.to_nat seq map].
        rewrite app_nil_r. reflexivity. }
    rewrite <- Hcalls.
    match goal with
    | |- calls_of _ (elapse later ?w2) = _ =>
        destruct (elapse_no_timer (next_handle w) later w2) as [_ ->]
    end.
    + intros t Hin. cbn [logged with_console with_timers timers] in Hin.
      apply list_elem_of_filter in Hin as [Hne _]. exact Hne.
    + reflexivity.
  - unfold expected_calls. rewrite length_map, length_seq. reflexivity.
Qed.

Lemma filter_nothing_to_call (h : positive) (t_now : Z) (ts : list timer) :
  (forall t, t ∈ ts -> handle t = h -> exists v, timer_callback t = NotCallable v) ->
  filter (fun i => fired_by i = h) (concat (map snd (map (fire t_now) ts))) = [].
Proof.
  induction ts as [| t ts IH]; intros Hsilent; [reflexivity |].
  cbn [map concat]. rewrite filter_app, IH.
  - rewrite app_nil_r. apply filter_fired_by_none.
    intros i Hi Hh. pose proof (fire_fired_by _ _ _ Hi) as Hby.
    destruct (Hsilent t) as [v Hv]; [left | congruence |].
    unfold fire in Hi. rewrite Hv in Hi.
    destruct (due t <=? t_now); inversion Hi.
  - intros t' Hin. apply Hsilent. right. exact Hin.
Qed.

Lemma tick_nothing_to_call (h : positive) w :
  nothing_to_call h w ->
  nothing_to_call h (tick w) /\ calls_of h (tick w) = calls_of h w.
Proof.
  intros Hsilent. split.
  - intros t Hin Hh. cbn [tick timers] in Hin.
    rewrite map_map in Hin. apply list_elem_of_fmap in Hin as (t0 & -> & Hin0).
    rewrite fire_handle in Hh. destruct (Hsilent t0 Hin0 Hh) as [v Hv].
    exists v. unfold fire. destruct (due t0 <=? now w + 1); exact Hv.
  - unfold calls_of. cbn [tick calls].
    rewrite filter_app, filter_nothing_to_call by exact Hsilent.
    apply app_nil_r.
Qed.

Lemma elapse_nothing_to_call (h : positive) (ms : nat) w :
  nothing_to_call h w ->
  nothing_to_call h (elapse ms w) /\ calls_of h (elapse ms w) = calls_of h w.
Proof.
  intros Hsilent.
  induction ms as [| ms [IHs IHc]]; [split; [exact Hsilent | reflexivity] |].
  change (elapse (S ms) w) with (tick (elapse ms w)).
  destruct (tick_nothing_to_call h _ IHs) as [Hs Hc].
  split; [exact Hs | congruence].
Qed.

(** X16.  A callback that is not a function is accepted without complaint:
    the instance is enabled and a timer is set as for any callback, so a
    later call with a real function is refused as already enabled, and
    nothing is ever called, however long one waits. *)
Theorem startAutoUpdate_not_callable this (v : value) w :
  autoUpdateEnabled this = false ->
  no_timer (next_handle w) w ->
  exists this' w',
    let h := next_handle w in
    startAutoUpdate this (NotCallable v) w = (Val this', w')
    /\ autoUpdateEnabled this' = true
    /\ updateTimer this' = SlotHandle h
    /\ length (timers w') = S (length (timers w))
    /\ (forall f : string,
          startAutoUpdate this' (Function f) w'
          = (Val this', logged (Log [Text "Auto-update already enabled"]) w'))
    /\ forall ms : nat, calls_of h (elapse ms w') = calls_of h w.
Proof.
  intros Hoff Hfresh.
  eexists _, _. cbv zeta.
  split; [apply startAutoUpdate_disabled, Hoff |].
  do 2 (split; [reflexivity |]).
  split; [cbn [with_timers timers]; rewrite length_app; cbn; lia |].
  split; [intros f; apply startAutoUpdate_enabled; reflexivity |].
  intros ms.
  match goal with
  | |- calls_of _ (elapse ms ?w') = _ =>
      destruct (elapse_nothing_to_call (next_handle w) ms w') as [_ ->]
  end; [| reflexivity].
  intros t Hin Hh. cbn [with_timers timers logged with_console] in Hin.
  apply elem_of_app in Hin as [Hin | Hin].
  - exfalso. exact (Hfresh t Hin Hh).
  - apply list_elem_of_singleton in Hin. subst t. exists v. reflexivity.
Qed.




End Further.

(** * Worked examples *)

#[local] Existing Instance sample_host.

(** The specification's own test points, run on the code. *)
Example getIoTStatus_at_0_minutes :
  fst (getIoTStatus constructor (sample_world (serving sample_document) 0))
  = Val {[ "status" := VStr "online";
           "message" := VStr "IoT data current (0 min ago)";
           "lastUpdate" := VStr "1704067200000";
           "deviceId" := VStr "dev-1";
           "currentHours" := five ]}.
Proof. vm_compute. reflexivity. Qed.

Example getIoTStatus_at_90_minutes :
  fst (getIoTStatus constructor (sample_world (serving sample_document) 90))
  = Val {[ "status" := VStr "stale";
           "message" := VStr "IoT data stale (1h 30m ago)";
           "lastUpdate" := VStr "1704067200000";
           "deviceId" := VStr "dev-1";
           "currentHours" := five ]}.
Proof. vm_compute. reflexivity. Qed.

Example getIoTStatus_at_1500_minutes :
  fst (getIoTStatus constructor (sample_world (serving sample_document) 1500))
  = Val {[ "status" := VStr "offline";
           "message" := VStr "IoT data very old (>24h)";
           "lastUpdate" := VStr "1704067200000";
           "deviceId" := VStr "dev-1";
           "currentHours" := five ]}.
Proof. vm_compute. reflexivity. Qed.

(** A timestamp five minutes in the future. *)
Example getIoTStatus_in_the_future :
  fst (getIoTStatus constructor (sample_world (serving sample_document) (-5)))
  = Val {[ "status" := VStr "online";
           "message" := VStr "IoT data current (-5 min ago)";
           "lastUpdate" := VStr "1704067200000";
           "deviceId" := VStr "dev-1";
           "currentHours" := five ]}.
Proof. vm_compute. reflexivity. Qed.

(** Only the record mapped to the document's own device is written. *)
Example updateEquipmentWithIoTData_sample :
  let '(result, w') :=
    updateEquipmentWithIoTData constructor [1%positive; 2%positive]
      (sample_world (serving sample_document) 0) in
  result = Val [1%positive; 2%positive]
  /\ heap w' !! 1%positive = Some (merged_record_of "EX-100")
  /\ heap w' !! 2%positive = Some (record_of "EX-200")
  /\ console w'
     = [ Log [Text "IoT data fetched:"; Shown sample_document];
         Log [Text "Updated equipment EX-100 with 5 hours"] ].
Proof. vm_compute. repeat split; reflexivity. Qed.

(** Equality of numbers does not depend on how the number is written. *)
Example number_equal_by_value :
  number_equal (S754_finite false 5 0) (S754_finite false 10 (-1)) = true
  /\ number_equal (S754_finite false 5 0) (S754_finite false 5 1) = false
  /\ number_equal (S754_zero true) (S754_zero false) = true
  /\ number_equal S754_nan S754_nan = false.
Proof. repeat split; reflexivity. Qed.

(** A [last_updated] that cannot be converted to a primitive: the [Date]
    constructor throws and so does [getIoTStatus]. *)
Example getIoTStatus_undatable :
  fst (getIoTStatus constructor (sample_world (serving undatable_document) 0))
  = Exn (TypeError "Cannot convert object to primitive value").
Proof. vm_compute. reflexivity. Qed.

(** A period of 2^31 ms on a host that runs unusual delays at 1 ms: the timer
    gets a delay of 1 ms and the callback runs after one millisecond. *)
Example polling_with_an_unusual_period :
  let this := {| iotDataFile := "iot_data.json"; updateInterval := 2147483648;
                 autoUpdateEnabled := false; updateTimer := SlotUndefined |} in
  let '(_, w') := startAutoUpdate this (Function "refresh") (sample_world unreachable 0) in
  map delay (timers w') = [1]
  /\ map fired_at (calls (elapse 1 w')) = [1704067200001].
Proof. vm_compute. split; reflexivity. Qed.

(** Two minutes of polling at the default period: four runs. *)
Example polling_for_two_minutes :
  let '(_, w') :=
    startAutoUpdate constructor (Function "refresh") (sample_world unreachable 0) in
  map fired_at (calls (elapse (Z.to_nat 120000) w'))
  = [1704067230000; 1704067260000; 1704067290000; 1704067320000].
Proof. vm_compute. reflexivity. Qed.

(** ** The properties at concrete inputs *)

Lemma no_timer_at_first (net : string -> settled) (minutes : Z) :
  no_timer 1%positive (sample_world net minutes).
Proof. intros t Hin. inversion Hin. Defined.

(** The document names its device by the empty string and maps EX-100 to it:
    the record keeps its fields, against the merge property as specified. *)
Lemma merge_as_specified_fails : ~ merge_as_specified.
Proof.
  intros Hclaim.
  pose (w := sample_world (serving (VObj unnamed_device_document)) 0).
  destruct (Hclaim sample_host constructor [1%positive] unnamed_device_document
              {[ "EX-100" := VStr "" ]} w
              (snd (fetchIoTData constructor w))
              (snd (updateEquipmentWithIoTData constructor [1%positive] w))
              eq_refl eq_refl eq_refl 1%positive (record_of "EX-100"))
    as [Hwritten _].
  - left.
  - reflexivity.
  - destruct Hwritten as (r' & writable & writable' & Hr' & Hhours & _).
    + exists (VStr ""). split; reflexivity.
    + vm_compute in Hr'. injection Hr' as <-. discriminate Hhours.
Qed.

(** The same input, run: the record is mapped to the document's device and is
    not written. *)
Example updateEquipmentWithIoTData_unnamed_device :
  let '(result, w') :=
    updateEquipmentWithIoTData constructor [1%positive]
      (sample_world (serving (VObj unnamed_device_document)) 0) in
  result = Val [1%positive]
  /\ heap w' !! 1%positive = Some (record_of "EX-100")
  /\ receives_reading (VObj unnamed_device_document) (record_of "EX-100") = false.
Proof. vm_compute. repeat split; reflexivity. Qed.

(** A body with two of the four fields is returned as it is, against the
    guarantee on retrieval as specified. *)
Lemma fetch_as_specified_fails : ~ fetch_as_specified.
Proof.
  intros Hclaim.
  pose (w := sample_world (serving partial_document) 0).
  destruct (Hclaim sample_host constructor w
              {| ok := true; status := 200; json := Val partial_document |}
              partial_document (snd (fetchIoTData constructor w))
              eq_refl eq_refl eq_refl) as [Hnull | Hfields].
  - discriminate Hnull.
  - vm_compute in Hfields. discriminate Hfields.
Qed.

Lemma sample_records_take_merge (net : string -> settled) (minutes : Z) :
  mergeable_records sample_document (heap (sample_world net minutes))
    [1%positive; 2%positive].
Proof.
  intros l Hl. apply list_elem_of_In in Hl.
  destruct Hl as [<- | [<- | []]]; eexists; (split; [reflexivity |]);
    intros _; reflexivity.
Defined.

Lemma updateEquipmentWithIoTData_merges_witness :
  exists w',
    updateEquipmentWithIoTData constructor [1%positive; 2%positive]
      (sample_world (serving sample_document) 0)
    = (Val [1%positive; 2%positive], w')
    /\ heap w' !! 1%positive = Some (merged_record_of "EX-100")
    /\ heap w' !! 2%positive = Some (record_of "EX-200").
Proof.
  pose (w := sample_world (serving sample_document) 0).
  destruct (updateEquipmentWithIoTData_merges (H := sample_host) constructor w
              (snd (fetchIoTData constructor w)) sample_document "5"
              [1%positive; 2%positive] eq_refl eq_refl eq_refl eq_refl
              (sample_records_take_merge _ _))
    as (w' & Hrun & Hheap).
  exists w'. split; [exact Hrun |]. split.
  - apply (Hheap 1%positive (record_of "EX-100") eq_refl); [left | reflexivity].
  - apply (Hheap 2%positive (record_of "EX-200") eq_refl). right. reflexivity.
Defined.

Lemma getIoTStatus_classifies_witness :
  (exists report w1,
     getIoTStatus constructor (sample_world (serving sample_document) 0) = (Val report, w1)
     /\ report !! "status" = Some (VStr "online")
     /\ report !! "message" = Some (VStr "IoT data current (0 min ago)"))
  /\ (exists report w1,
        getIoTStatus constructor (sample_world (serving sample_document) 90) = (Val report, w1)
        /\ report !! "status" = Some (VStr "stale")
        /\ report !! "message" = Some (VStr "IoT data stale (1h 30m ago)"))
  /\ (exists report w1,
        getIoTStatus constructor (sample_world (serving sample_document) 1500) = (Val report, w1)
        /\ report !! "status" = Some (VStr "offline")
        /\ report !! "message" = Some (VStr "IoT data very old (>24h)")).
Proof.
  split; [| split].
  - destruct (getIoTStatus_classifies (H := sample_host) constructor
                (sample_world (serving sample_document) 0)
                (snd (fetchIoTData constructor (sample_world (serving sample_document) 0)))
                sample_document 1704067200000 eq_refl eq_refl
                ltac:(vm_compute; reflexivity))
      as (report & Hrun & Honline & _).
    exists report. eexists. split; [exact Hrun |].
    apply Honline. vm_compute. discriminate.
  - destruct (getIoTStatus_classifies (H := sample_host) constructor
                (sample_world (serving sample_document) 90)
                (snd (fetchIoTData constructor (sample_world (serving sample_document) 90)))
                sample_document 1704067200000 eq_refl eq_refl
                ltac:(vm_compute; reflexivity))
      as (report & Hrun & _ & Hstale & _).
    exists report. eexists. split; [exact Hrun |].
    apply Hstale. vm_compute. split; [reflexivity | discriminate].
  - destruct (getIoTStatus_classifies (H := sample_host) constructor
                (sample_world (serving sample_document) 1500)
                (snd (fetchIoTData constructor (sample_world (serving sample_document) 1500)))
                sample_document 1704067200000 eq_refl eq_refl
                ltac:(vm_compute; reflexivity))
      as (report & Hrun & _ & _ & Hoffline).
    exists report. eexists. split; [exact Hrun |].
    apply Hoffline. vm_compute. reflexivity.
Defined.

Lemma updateEquipmentWithIoTData_nothing_to_merge_witness :
  (exists w',
     updateEquipmentWithIoTData constructor [1%positive; 2%positive]
       (sample_world unreachable 0)
     = (Val [1%positive; 2%positive], w')
     /\ heap w' = heap (sample_world unreachable 0))
  /\ (exists w',
        updateEquipmentWithIoTData constructor [1%positive; 2%positive]
          (sample_world (serving partial_document) 0)
        = (Val [1%positive; 2%positive], w')
        /\ heap w' = heap (sample_world (serving partial_document) 0)).
Proof.
  split.
  - apply (updateEquipmentWithIoTData_nothing_to_merge (H := sample_host) constructor
             (sample_world unreachable 0)
             (snd (fetchIoTData constructor (sample_world unreachable 0)))
             VNull [1%positive; 2%positive] eq_refl).
    left. reflexivity.
  - apply (updateEquipmentWithIoTData_nothing_to_merge (H := sample_host) constructor
             (sample_world (serving partial_document) 0)
             (snd (fetchIoTData constructor (sample_world (serving partial_document) 0)))
             partial_document [1%positive; 2%positive] eq_refl).
    right. eexists. split; reflexivity.
Defined.

Lemma fetchIoTData_never_throws_witness :
  fetchIoTData constructor (sample_world unreachable 0)
  = (Val VNull,
     logged (Err [Text "Error fetching IoT data:"; Thrown (TypeError "Failed to fetch")])
       (sample_world unreachable 0))
  /\ fetchIoTData constructor (sample_world (answering 404) 0)
     = (Val VNull,
        logged (Err [Text "Error fetching IoT data:";
                     Thrown (new_Error "HTTP error! status: 404")])
          (sample_world (answering 404) 0))
  /\ fetchIoTData constructor (sample_world garbled 0)
     = (Val VNull,
        logged (Err [Text "Error fetching IoT data:";
                     Thrown {| error_name := "SyntaxError";
                               error_message := "Unexpected token" |}])
          (sample_world garbled 0))
  /\ (exists w',
        updateEquipmentWithIoTData constructor [1%positive] (sample_world (answering 404) 0)
        = (Val [1%positive], w'))
  /\ (exists report w',
        getIoTStatus constructor (sample_world (answering 404) 0) = (Val report, w'))
  /\ (exists w',
        refreshIoTData constructor (sample_world (answering 404) 0) = (Val VNull, w')).
Proof.
  split; [| split; [| split]].
  - destruct (fetchIoTData_never_throws (H := sample_host) constructor
                (sample_world unreachable 0) [1%positive])
      as (_ & Hrejected & _).
    exact (Hrejected _ eq_refl).
  - destruct (fetchIoTData_never_throws (H := sample_host) constructor
                (sample_world (answering 404) 0) [1%positive])
      as (_ & _ & Hstatus & _).
    exact (Hstatus _ eq_refl eq_refl).
  - destruct (fetchIoTData_never_throws (H := sample_host) constructor
                (sample_world garbled 0) [1%positive])
      as (_ & _ & _ & Hparse & _).
    exact (Hparse _ _ eq_refl eq_refl eq_refl).
  - destruct (fetchIoTData_never_throws (H := sample_host) constructor
                (sample_world (answering 404) 0) [1%positive])
      as (_ & _ & _ & _ & Hfails).
    destruct Hfails as (e & _ & _ & Hmerge & Hstatus & w' & Hrefresh & _).
    + right. left. eexists. split; reflexivity.
    + split; [eexists; exact Hmerge |].
      split; [eexists _, _; exact Hstatus | eexists; exact Hrefresh].
Defined.

Lemma fetchIoTData_returns_body_witness :
  exists w',
    fetchIoTData constructor (sample_world (serving partial_document) 0)
    = (Val partial_document, w').
Proof.
  apply (fetchIoTData_returns_body constructor
           (sample_world (serving partial_document) 0)
           {| ok := true; status := 200; json := Val partial_document |}
           eq_refl eq_refl).
Defined.

Lemma getIoTStatus_unavailable_witness :
  exists (report : gmap string value) w1,
    getIoTStatus constructor (sample_world unreachable 0) = (Val report, w1)
    /\ report = {[ "status" := VStr "offline";
                   "message" := VStr "IoT data unavailable";
                   "lastUpdate" := VStr "Never" ]}
    /\ report !! "deviceId" = None
    /\ report !! "currentHours" = None.
Proof.
  destruct (getIoTStatus_unavailable (H := sample_host) constructor
              (sample_world unreachable 0)
              (snd (fetchIoTData constructor (sample_world unreachable 0))) eq_refl)
    as (report & Hrun & Hreport & _ & Hdevice & Hhours).
  exists report. eexists.
  split; [exact Hrun | split; [exact Hreport | split; [exact Hdevice | exact Hhours]]].
Defined.

Lemma getIoTStatus_unparseable_witness :
  (exists (report : gmap string value) w1,
     getIoTStatus constructor (sample_world (serving partial_document) 0) = (Val report, w1)
     /\ report !! "status" = Some (VStr "online")
     /\ report !! "message" = Some (VStr "IoT data current (NaN min ago)"))
  /\ (exists (report : gmap string value) w1,
        getIoTStatus constructor
          (sample_world (serving (VObj {[ "last_updated" := VStr "yesterday" ]})) 0)
        = (Val report, w1)
        /\ report !! "status" = Some (VStr "online")
        /\ report !! "message" = Some (VStr "IoT data current (NaN min ago)")).
Proof.
  split.
  - destruct (getIoTStatus_unparseable (H := sample_host) constructor
                (sample_world (serving partial_document) 0)
                (snd (fetchIoTData constructor (sample_world (serving partial_document) 0)))
                {[ "device_id" := VStr "dev-1"; "current_hours" := five ]} eq_refl)
      as (report & Hrun & Hstatus & Hmessage & _).
    + left. reflexivity.
    + exists report. eexists. split; [exact Hrun | split; [exact Hstatus | exact Hmessage]].
  - destruct (getIoTStatus_unparseable (H := sample_host) constructor
                (sample_world (serving (VObj {[ "last_updated" := VStr "yesterday" ]})) 0)
                (snd (fetchIoTData constructor
                        (sample_world (serving (VObj {[ "last_updated" := VStr "yesterday" ]})) 0)))
                {[ "last_updated" := VStr "yesterday" ]} eq_refl)
      as (report & Hrun & Hstatus & Hmessage & _).
    + right. reflexivity.
    + exists report. eexists. split; [exact Hrun | split; [exact Hstatus | exact Hmessage]].
Defined.

Lemma startAutoUpdate_idempotent_witness :
  (exists w',
     startAutoUpdate started (Function "refresh") (sample_world unreachable 0)
     = (Val started, w')
     /\ timers w' = [])
  /\ (exists this' w',
        startAutoUpdate constructor (Function "refresh") (sample_world unreachable 0)
        = (Val this', w')
        /\ timers w'
           = [ {| handle := 1%positive; timer_callback := Function "refresh";
                  delay := 30000; due := 1704067230000 |} ]
        /\ (forall ms : nat, Z.of_nat ms < 30000 -> calls_of 1%positive (elapse ms w') = [])
        /\ calls_of 1%positive (elapse (Z.to_nat 30000) w')
           = [ {| fired_by := 1%positive; fired_function := "refresh";
                  fired_at := 1704067230000 |} ]).
Proof.
  split.
  - destruct (startAutoUpdate_idempotent (H := sample_host) started (Function "refresh")
                (sample_world unreachable 0)) as (Hnoop & _ & _).
    eexists. split; [exact (Hnoop eq_refl) | reflexivity].
  - destruct (startAutoUpdate_idempotent (H := sample_host) constructor
                (Function "refresh") (sample_world unreachable 0))
      as (_ & Hstart & _ & Hrange).
    destruct (Hstart eq_refl)
      as (this' & w' & Hrun & _ & _ & _ & _ & _ & Hschedule).
    destruct (Hschedule Hrange) as (Htimers & Hcalls).
    destruct (Hcalls "refresh" eq_refl (no_timer_at_first _ _)) as (_ & Hbefore & Hfirst).
    exists this', w'. split; [exact Hrun |].
    split; [exact Htimers |].
    split; [exact Hbefore | exact Hfirst].
Defined.

Lemma stopAutoUpdate_cancels_witness :
  (exists this' w',
     stopAutoUpdate started
       (snd (startAutoUpdate constructor (Function "refresh") (sample_world unreachable 0)))
     = (Val this', w')
     /\ updateTimer this' = SlotNull
     /\ autoUpdateEnabled this' = false
     /\ timers w' = []
     /\ forall ms : nat, calls_of 1%positive (elapse ms w') = [])
  /\ stopAutoUpdate constructor (sample_world unreachable 0)
     = (Val constructor, sample_world unreachable 0).
Proof.
  destruct (stopAutoUpdate_cancels started
              (snd (startAutoUpdate constructor (Function "refresh")
                      (sample_world unreachable 0))))
    as (Hstop & _ & _).
  destruct (Hstop 1%positive eq_refl)
    as (this' & w' & Hrun & Hslot & Hflag & Htimers & _ & Hcalls).
  split.
  - exists this', w'. split; [exact Hrun |].
    split; [exact Hslot | split; [exact Hflag | split; [exact Htimers | exact Hcalls]]].
  - destruct (stopAutoUpdate_cancels constructor
                (sample_world unreachable 0)) as (_ & Hnoop & _).
    exact (Hnoop eq_refl).
Defined.

(** ** The further properties at concrete inputs *)

Lemma updateEquipmentWithIoTData_keeps_records_witness :
  exists result w',
    updateEquipmentWithIoTData constructor [1%positive]
      (frozen_world (serving sample_document))
    = (result, w')
    /\ (exists r', heap w' !! 1%positive = Some r' /\ equipmentNumber r' = "EX-100")
    /\ heap w' !! 2%positive = Some (record_of "EX-200")
    /\ timers w' = [].
Proof.
  destruct (updateEquipmentWithIoTData_keeps_records (H := sample_host) constructor
              (frozen_world (serving sample_document)) [1%positive])
    as (result & w' & Hrun & _ & _ & Hkept & Houtside & Htimers & _).
  exists result, w'. split; [exact Hrun |]. split; [| split; [| exact Htimers]].
  - destruct (Hkept 1%positive (frozen_record_of "EX-100") eq_refl)
      as (r' & Hr' & Hnumber & _).
    exists r'. split; [exact Hr' | exact Hnumber].
  - rewrite Houtside; [reflexivity |].
    intros Hin. apply list_elem_of_singleton in Hin. discriminate Hin.
Defined.

Lemma sample_records_take_merge_twice (net : string -> settled) (minutes : Z) :
  mergeable_records sample_document (heap (sample_world net minutes))
    [1%positive; 2%positive; 1%positive].
Proof.
  intros l Hl. apply list_elem_of_In in Hl.
  destruct Hl as [<- | [<- | [<- | []]]]; eexists; (split; [reflexivity |]);
    intros _; reflexivity.
Defined.

Lemma updateEquipmentWithIoTData_logs_witness :
  exists w',
    updateEquipmentWithIoTData constructor [1%positive; 2%positive; 1%positive]
      (sample_world (serving sample_document) 0)
    = (Val [1%positive; 2%positive; 1%positive], w')
    /\ console w'
       = [ Log [Text "IoT data fetched:"; Shown sample_document];
           Log [Text "Updated equipment EX-100 with 5 hours"];
           Log [Text "Updated equipment EX-100 with 5 hours"] ].
Proof.
  destruct (updateEquipmentWithIoTData_logs (H := sample_host) constructor
              (sample_world (serving sample_document) 0)
              (snd (fetchIoTData constructor (sample_world (serving sample_document) 0)))
              sample_document "5" [1%positive; 2%positive; 1%positive]
              eq_refl eq_refl eq_refl (sample_records_take_merge_twice _ _))
    as (w' & Hrun & Hconsole & _).
  exists w'. split; [exact Hrun |]. rewrite Hconsole. vm_compute. reflexivity.
Defined.

Lemma updateEquipmentWithIoTData_twice_witness :
  exists w' w'',
    updateEquipmentWithIoTData constructor [1%positive; 2%positive]
      (sample_world (serving sample_document) 0)
    = (Val [1%positive; 2%positive], w')
    /\ updateEquipmentWithIoTData constructor [1%positive; 2%positive] w'
       = (Val [1%positive; 2%positive], w'')
    /\ heap w'' = heap w'.
Proof.
  exact (updateEquipmentWithIoTData_twice (H := sample_host) constructor
           (sample_world (serving sample_document) 0)
           (snd (fetchIoTData constructor (sample_world (serving sample_document) 0)))
           sample_document "5" [1%positive; 2%positive] eq_refl eq_refl
           (sample_records_take_merge _ _)).
Defined.

Lemma updateEquipmentWithIoTData_throws_midway_witness :
  exists e w',
    updateEquipmentWithIoTData constructor [1%positive; 3%positive; 2%positive]
      (sample_world (serving sample_document) 0)
    = (Exn e, w')
    /\ error_name e = "TypeError"
    /\ heap w' !! 1%positive = Some (merged_record_of "EX-100").
Proof.
  destruct (updateEquipmentWithIoTData_throws_midway (H := sample_host) constructor
              (sample_world (serving sample_document) 0)
              (snd (fetchIoTData constructor (sample_world (serving sample_document) 0)))
              sample_document "5" [1%positive] [2%positive] 3%positive
              eq_refl eq_refl eq_refl)
    as (e & w' & Hrun & Hname & Hheap).
  - intros l Hl. apply list_elem_of_singleton in Hl. subst l.
    eexists. split; [reflexivity |]. intros _. reflexivity.
  - reflexivity.
  - exists e, w'. split; [exact Hrun |]. split; [exact Hname |].
    rewrite Hheap. vm_compute. reflexivity.
Defined.

Lemma updateEquipmentWithIoTData_unprintable_hours_witness :
  exists e w',
    updateEquipmentWithIoTData constructor [1%positive; 2%positive]
      (sample_world (serving unprintable_hours_document) 0)
    = (Exn e, w')
    /\ (exists r, heap w' !! 1%positive = Some r
                  /\ currentHours r = Data unconvertible true)
    /\ heap w' !! 2%positive = Some (record_of "EX-200")
    /\ console w' = [ Log [Text "IoT data fetched:"; Shown unprintable_hours_document] ].
Proof.
  pose (w := sample_world (serving unprintable_hours_document) 0).
  pose proof (updateEquipmentWithIoTData_unprintable_hours (H := sample_host) constructor
                w (snd (fetchIoTData constructor w)) unprintable_hours_document
                (TypeError "Cannot convert object to primitive value")
                [] [2%positive] 1%positive (record_of "EX-100")
                eq_refl eq_refl eq_refl) as Hrun.
  eexists _, _. split.
  - apply Hrun; try reflexivity. intros l Hl. inversion Hl.
  - vm_compute. split; [eexists; split; reflexivity | split; reflexivity].
Defined.

Lemma updateEquipmentWithIoTData_refused_witness :
  exists e,
    updateEquipmentWithIoTData constructor [2%positive; 1%positive]
      (frozen_world (serving sample_document))
    = (Exn e,
       logged (Log [Text "IoT data fetched:"; Shown sample_document])
         (frozen_world (serving sample_document)))
    /\ error_name e = "TypeError".
Proof.
  pose (w := frozen_world (serving sample_document)).
  pose proof (updateEquipmentWithIoTData_refused (H := sample_host) constructor
                w (snd (fetchIoTData constructor w)) sample_document
                (AddToNonExtensible "currentHours")
                [2%positive] [] 1%positive (frozen_record_of "EX-100")
                eq_refl eq_refl) as Hrun.
  eexists. split.
  - apply Hrun; try reflexivity.
    intros l Hl. apply list_elem_of_singleton in Hl. subst l.
    eexists. split; reflexivity.
  - reflexivity.
Defined.

Lemma falsy_body_is_no_data_witness :
  fst (getIoTStatus constructor (sample_world (serving (VStr "")) 0))
  = Val {[ "status" := VStr "offline";
           "message" := VStr "IoT data unavailable";
           "lastUpdate" := VStr "Never" ]}
  /\ fst (updateEquipmentWithIoTData constructor [1%positive]
            (sample_world (serving (VStr "")) 0))
     = Val [1%positive].
Proof.
  destruct (falsy_body_is_no_data (H := sample_host) constructor
              (sample_world (serving (VStr "")) 0)
              (snd (fetchIoTData constructor (sample_world (serving (VStr "")) 0)))
              (VStr "") [1%positive] eq_refl)
    as [Hstatus Hmerge].
  - right. right. left. reflexivity.
  - rewrite Hstatus, Hmerge. split; reflexivity.
Defined.

Lemma falsy_mapping_is_no_mapping_witness :
  fst (updateEquipmentWithIoTData constructor [3%positive]
         (sample_world (serving (VObj null_mapping_document)) 0))
  = Val [3%positive].
Proof.
  rewrite (falsy_mapping_is_no_mapping (H := sample_host) constructor
             (sample_world (serving (VObj null_mapping_document)) 0)
             (snd (fetchIoTData constructor
                     (sample_world (serving (VObj null_mapping_document)) 0)))
             null_mapping_document VNull [3%positive] eq_refl eq_refl eq_refl).
  reflexivity.
Defined.

Lemma sample_mapping_strings (k : string) (d : value) :
  sample_mapping !! k = Some d -> exists s, d = VStr s.
Proof.
  unfold sample_mapping. intros Hk.
  apply lookup_insert_Some in Hk as [[_ <-] | [_ Hk]]; [eauto |].
  apply lookup_singleton_Some in Hk as [_ <-]. eauto.
Defined.

Lemma receives_reading_typed_witness :
  receives_reading (VObj sample_fields) (record_of "EX-100") = true
  <-> exists s, s <> ""
        /\ sample_mapping !! "EX-100" = Some (VStr s)
        /\ sample_fields !! "device_id" = Some (VStr s).
Proof.
  apply (receives_reading_typed (H := sample_host) sample_fields sample_mapping
           (record_of "EX-100") eq_refl sample_mapping_strings).
  intros d Hd. vm_compute in Hd. injection Hd as <-. eauto.
Defined.

Lemma getIoTStatus_carries_document_witness :
  exists (report : gmap string value) w1,
    getIoTStatus constructor (sample_world (serving sample_document) 1500)
    = (Val report, w1)
    /\ report !! "deviceId" = Some (VStr "dev-1")
    /\ report !! "currentHours" = Some five.
Proof.
  destruct (getIoTStatus_carries_document (H := sample_host) constructor
              (sample_world (serving sample_document) 1500)
              (snd (fetchIoTData constructor (sample_world (serving sample_document) 1500)))
              sample_document (Some 1704067200000) eq_refl eq_refl
              ltac:(vm_compute; reflexivity))
    as (report & Hrun & _ & Hdevice & Hhours & _).
  exists report. eexists. split; [exact Hrun |]. split; [exact Hdevice | exact Hhours].
Defined.

Lemma getIoTStatus_by_milliseconds_witness :
  (exists (report : gmap string value) w1,
     getIoTStatus constructor (sample_world (serving sample_document) 60) = (Val report, w1)
     /\ report !! "status" = Some (VStr "online"))
  /\ (exists (report : gmap string value) w1,
        getIoTStatus constructor (sample_world (serving sample_document) 61)
        = (Val report, w1)
        /\ report !! "status" = Some (VStr "stale"))
  /\ (exists (report : gmap string value) w1,
        getIoTStatus constructor (sample_world (serving sample_document) 1441)
        = (Val report, w1)
        /\ report !! "status" = Some (VStr "offline")).
Proof.
  split; [| split].
  - destruct (getIoTStatus_by_milliseconds (H := sample_host) constructor
                (sample_world (serving sample_document) 60)
                (snd (fetchIoTData constructor (sample_world (serving sample_document) 60)))
                sample_document 1704067200000 eq_refl eq_refl
                ltac:(vm_compute; reflexivity))
      as (report & Hrun & Honline & _).
    exists report. eexists. split; [exact Hrun |].
    apply Honline. vm_compute. reflexivity.
  - destruct (getIoTStatus_by_milliseconds (H := sample_host) constructor
                (sample_world (serving sample_document) 61)
                (snd (fetchIoTData constructor (sample_world (serving sample_document) 61)))
                sample_document 1704067200000 eq_refl eq_refl
                ltac:(vm_compute; reflexivity))
      as (report & Hrun & _ & Hstale & _).
    exists report. eexists. split; [exact Hrun |].
    apply Hstale. vm_compute. split; [discriminate | reflexivity].
  - destruct (getIoTStatus_by_milliseconds (H := sample_host) constructor
                (sample_world (serving sample_document) 1441)
                (snd (fetchIoTData constructor (sample_world (serving sample_document) 1441)))
                sample_document 1704067200000 eq_refl eq_refl
                ltac:(vm_compute; reflexivity))
      as (report & Hrun & _ & _ & Hoffline).
    exists report. eexists. split; [exact Hrun |].
    apply Hoffline. vm_compute. discriminate.
Defined.

Lemma getIoTStatus_future_witness :
  exists (report : gmap string value) w1,
    getIoTStatus constructor (sample_world (serving sample_document) (-5)) = (Val report, w1)
    /\ report !! "status" = Some (VStr "online").
Proof.
  destruct (getIoTStatus_future (H := sample_host) constructor
              (sample_world (serving sample_document) (-5))
              (snd (fetchIoTData constructor (sample_world (serving sample_document) (-5))))
              sample_document 1704067200000 eq_refl eq_refl
              ltac:(vm_compute; reflexivity) ltac:(vm_compute; reflexivity))
    as (report & ahead & Hrun & Hstatus & _).
  exists report. eexists. split; [exact Hrun | exact Hstatus].
Defined.

Lemma constructor_in_step (net : string -> settled) (minutes : Z) :
  in_step [] constructor (sample_world net minutes).
Proof.
  split; [split; reflexivity |]. intros x Hx. inversion Hx.
Defined.

Lemma session_in_step_witness :
  exists this' w',
    session [Start (Function "refresh"); Start (Function "again"); Wait 100;
             Stop; Stop; Start (Function "again")]
      constructor (sample_world unreachable 0)
    = (Val this', w')
    /\ in_step [] this' w'
    /\ length (timers w') = (if autoUpdateEnabled this' then 1 else 0)%nat.
Proof.
  destruct (session_in_step [] [Start (Function "refresh"); Start (Function "again");
                                Wait 100; Stop; Stop; Start (Function "again")]
              constructor (sample_world unreachable 0) (constructor_in_step _ _))
    as (this' & w' & Hrun & Hstep & _ & Hlength).
  exists this', w'. split; [exact Hrun | split; [exact Hstep | exact Hlength]].
Defined.

Lemma start_then_stop_witness :
  exists this1 w1 this2 w2,
    startAutoUpdate constructor (Function "refresh") (sample_world unreachable 0)
    = (Val this1, w1)
    /\ stopAutoUpdate this1 w1 = (Val this2, w2)
    /\ timers w2 = []
    /\ updateTimer this2 = SlotNull.
Proof.
  destruct (start_then_stop constructor (Function "refresh")
              (sample_world unreachable 0) eq_refl (no_timer_at_first _ _))
    as (this1 & w1 & this2 & w2 & Hstart & Hstop & Htimers & _ & _ & _ & Hslot & _).
  exists this1, w1, this2, w2.
  split; [exact Hstart | split; [exact Hstop | split; [exact Htimers | exact Hslot]]].
Defined.

Lemma start_wait_stop_witness :
  exists this1 w1 this2 w2,
    startAutoUpdate constructor (Function "refresh") (sample_world unreachable 0)
    = (Val this1, w1)
    /\ stopAutoUpdate this1 (elapse (Z.to_nat 70000) w1) = (Val this2, w2)
    /\ forall later : nat,
         map fired_at (calls_of 1%positive (elapse later w2))
         = [1704067230000; 1704067260000].
Proof.
  destruct (start_wait_stop constructor "refresh" (Z.to_nat 70000)
              (sample_world unreachable 0) eq_refl (no_timer_at_first _ _)
              ltac:(cbn; lia))
    as (this1 & w1 & this2 & w2 & Hstart & Hstop & Hcalls & _).
  exists this1, w1, this2, w2.
  split; [exact Hstart | split; [exact Hstop |]].
  intros later. rewrite Hcalls. vm_compute. reflexivity.
Defined.

Lemma startAutoUpdate_not_callable_witness :
  exists this' w',
    startAutoUpdate constructor (NotCallable VUndef) (sample_world unreachable 0)
    = (Val this', w')
    /\ autoUpdateEnabled this' = true
    /\ forall ms : nat, calls_of 1%positive (elapse ms w') = [].
Proof.
  destruct (startAutoUpdate_not_callable constructor VUndef
              (sample_world unreachable 0) eq_refl (no_timer_at_first _ _))
    as (this' & w' & Hrun & Hon & _ & _ & _ & Hcalls).
  exists this', w'. split; [exact Hrun | split; [exact Hon | exact Hcalls]].
Defined.
